(** * Shallow embedding of the book-app record service

    Sources embedded:
    - [app/models.py] (the [Book] row),
    - [app/repositories/sql_book_repository.py] ([SQLBookRepository]),
    - [app/services/book_service.py] ([BookService]),
    - [app/schemas.py] and [app/api/books.py] (validation and responses).

    The store is the default SQLite database ([DATABASE_URL] defaults to
    [sqlite:///./books.db]); its table is modelled as the list of rows in
    rowid order, which is the order a query without ORDER BY returns.
    SQLite is dynamically typed, so a row holds Python/SQL values. *)

From Stdlib Require Import ZArith List String Ascii Bool Lia.
From Stdlib Require Import Numbers.DecimalString Sorting.Permutation Sorting.Sorted.
Import ListNotations.
Open Scope string_scope.
Open Scope list_scope.
Set Warnings "-register-all".


(** ** Values *)

(** Python values that reach a row: [None], [int], [str]. *)
Inductive pyval : Type :=
| PyNone
| PyInt (z : Z)
| PyStr (s : string).

Definition pyval_eqb (x y : pyval) : bool :=
  match x, y with
  | PyNone, PyNone => true
  | PyInt a, PyInt b => Z.eqb a b
  | PyStr a, PyStr b => String.eqb a b
  | _, _ => false
  end.

(** Python truthiness of an optional string argument ([if title:]). *)
Definition truthy (o : option string) : bool :=
  match o with
  | Some s => negb (String.eqb s "")
  | None => false
  end.

(** ** The [Book] row (models.py) *)

Record Book : Type := mkBook {
  id : pyval;
  title : pyval;
  author : pyval;
  created_on : pyval;
  created_by : pyval
}.

(** The mapped columns, in declaration order. *)
Definition columns : list string :=
  ["id"; "title"; "author"; "created_on"; "created_by"].

Definition get_column (b : Book) (k : string) : option pyval :=
  if String.eqb k "id" then Some (id b)
  else if String.eqb k "title" then Some (title b)
  else if String.eqb k "author" then Some (author b)
  else if String.eqb k "created_on" then Some (created_on b)
  else if String.eqb k "created_by" then Some (created_by b)
  else None.

Definition is_column (k : string) : bool :=
  existsb (String.eqb k) columns.

(** What [setattr(book, k, value)] does for an attribute [k] of a [Book]
    instance that is not a mapped column. *)
Inductive attr_effect : Type :=
| AttrInstance  (* stored on the instance: the row is not touched *)
| AttrRaises.   (* raises, at the assignment or at the commit and refresh after it *)

(** What [update] depends on beyond the mapped columns, and which depends on
    the Python, SQLAlchemy and SQLite versions: the attributes of a [Book]
    instance that are not columns ([__class__], [__dict__], [__doc__],
    [_sa_instance_state], the class's methods and table metadata, ...) and,
    for [None], the names [hasattr] is false on; and SQLite's conversion of a
    text value stored into the INTEGER PRIMARY KEY ([None]: "datatype
    mismatch"). *)
Record python_env : Type := mkPythonEnv {
  nonmapped_attr : string -> option attr_effect;
  sqlite_integer_of_text : string -> option Z
}.

(** [hasattr(book, k)]: every mapped column is an attribute. *)
Definition hasattr (env : python_env) (k : string) : bool :=
  is_column k || match nonmapped_attr env k with Some _ => true | None => false end.

(** [setattr(book, field, value)], seen on the mapped columns. *)
Definition setattr (b : Book) (k : string) (v : pyval) : Book :=
  if String.eqb k "id" then {| id := v; title := title b; author := author b;
                               created_on := created_on b; created_by := created_by b |}
  else if String.eqb k "title" then {| id := id b; title := v; author := author b;
                               created_on := created_on b; created_by := created_by b |}
  else if String.eqb k "author" then {| id := id b; title := title b; author := v;
                               created_on := created_on b; created_by := created_by b |}
  else if String.eqb k "created_on" then {| id := id b; title := title b; author := author b;
                               created_on := v; created_by := created_by b |}
  else if String.eqb k "created_by" then {| id := id b; title := title b; author := author b;
                               created_on := created_on b; created_by := v |}
  else b.

(** ** SQLite [LIKE] *)

(** SQLite folds case for ASCII letters only ([sqlite3UpperToLower]). *)
Definition lower (c : ascii) : ascii :=
  let n := nat_of_ascii c in
  if ((65 <=? n) && (n <=? 90))%nat then ascii_of_nat (n + 32)%nat else c.

Definition eq_ci (a b : ascii) : bool := Ascii.eqb (lower a) (lower b).

(** The suffixes of [s], longest first: the positions at which SQLite's
    [patternCompare] retries the rest of a pattern after a [%]. *)
Fixpoint suffixes (s : string) : list string :=
  s :: match s with
       | EmptyString => []
       | String _ s' => suffixes s'
       end.

(** [x LIKE p] with no ESCAPE clause: [%] matches any run of characters,
    [_] exactly one, every other character itself up to ASCII case. *)
Fixpoint like (p s : string) : bool :=
  match p with
  | EmptyString => match s with EmptyString => true | _ => false end
  | String c p' =>
      if Ascii.eqb c "%"%char then existsb (like p') (suffixes s)
      else
        match s with
        | EmptyString => false
        | String x s' => (Ascii.eqb c "_"%char || eq_ci c x) && like p' s'
        end
  end.

(** SQLite's text form of a value for [LIKE]; NULL never matches. *)
Definition sql_text (v : pyval) : option string :=
  match v with
  | PyNone => None
  | PyInt z => Some (NilEmpty.string_of_int (Z.to_int z))
  | PyStr s => Some s
  end.

(** SQLAlchemy's [column.contains(x)]: [column LIKE '%' || x || '%']. *)
Definition contains (v : pyval) (x : string) : bool :=
  match sql_text v with
  | Some s => like ("%" ++ x ++ "%")%string s
  | None => false
  end.

(** ** [SQLBookRepository] *)

Definition store := list Book.

Definition get_by_id (st : store) (book_id : Z) : option Book :=
  find (fun b => pyval_eqb (id b) (PyInt book_id)) st.

(** [query.offset(skip).limit(limit).all()] *)
Definition get_all (st : store) (skip limit : nat) : list Book :=
  firstn limit (skipn skip st).

(** [search]: one condition per truthy argument, combined with [or_];
    without conditions the query is unfiltered. *)
Definition search_conditions (title_q author_q created_by_q : option string)
  : list (Book -> bool) :=
  (match title_q with
   | Some t => if truthy title_q then [fun b => contains (title b) t] else []
   | None => [] end) ++
  (match author_q with
   | Some a => if truthy author_q then [fun b => contains (author b) a] else []
   | None => [] end) ++
  (match created_by_q with
   | Some c => if truthy created_by_q then [fun b => contains (created_by b) c] else []
   | None => [] end).

Definition search (st : store) (title_q author_q created_by_q : option string)
  : list Book :=
  match search_conditions title_q author_q created_by_q with
  | [] => st
  | conds => filter (fun b => existsb (fun cond => cond b) conds) st
  end.

(** [get_by_created_by]: exact equality. *)
Definition get_by_created_by (st : store) (c : string) : list Book :=
  filter (fun b => pyval_eqb (created_by b) (PyStr c)) st.

Fixpoint replace_first (st : store) (book_id : Z) (b' : Book) : store :=
  match st with
  | [] => []
  | b :: rest =>
      if pyval_eqb (id b) (PyInt book_id) then b' :: rest
      else b :: replace_first rest book_id b'
  end.

Fixpoint remove_first (st : store) (book_id : Z) : store :=
  match st with
  | [] => []
  | b :: rest =>
      if pyval_eqb (id b) (PyInt book_id) then rest
      else b :: remove_first rest book_id
  end.

(** A raised exception (the session is rolled back) or a returned value. *)
Inductive exc (A : Type) : Type :=
| Raise
| Ret (a : A).
Arguments Raise {A}.
Arguments Ret {A} a.

Definition is_none (v : pyval) : bool :=
  match v with PyNone => true | _ => false end.

(** The constraints [db.commit()] enforces on an updated row: every column
    is NOT NULL, the INTEGER PRIMARY KEY holds an integer that no other row
    holds. *)
Definition row_ok (others : store) (b : Book) : bool :=
  negb (is_none (id b)) && negb (is_none (title b)) && negb (is_none (author b))
  && negb (is_none (created_on b)) && negb (is_none (created_by b))
  && match id b with PyInt _ => true | _ => false end
  && negb (existsb (fun o => pyval_eqb (id o) (id b)) others).

(** The body of [update]'s loop:
    [if hasattr(book, field) and value is not None: setattr(book, field, value)],
    on the instance and the list of the columns assigned so far. *)
Definition update_field (env : python_env) (o : exc (Book * list string))
  (kv : string * pyval) : exc (Book * list string) :=
  match o with
  | Raise => Raise
  | Ret (b, assigned) =>
      let '(field, value) := kv in
      if hasattr env field && negb (is_none value) then
        if is_column field then Ret (setattr b field value, field :: assigned)
        else match nonmapped_attr env field with
             | Some AttrRaises => Raise
             | _ => Ret (b, assigned)
             end
      else Ret (b, assigned)
  end.

(** The loop of [update]: [for field, value in book_update.items()]. *)
Definition apply_update (env : python_env) (b : Book)
  (book_update : list (string * pyval)) : exc (Book * list string) :=
  fold_left (update_field env) book_update (Ret (b, [])).

Definition int64_min : Z := (- 2 ^ 63)%Z.
Definition int64_max : Z := (2 ^ 63 - 1)%Z.

Definition in_int64 (z : Z) : bool := ((int64_min <=? z) && (z <=? int64_max))%Z.

(** An [int] as SQLite's TEXT affinity stores it. *)
Definition int_text (z : Z) : string := NilEmpty.string_of_int (Z.to_int z).

(** The value a column assigned [v] holds after [db.commit()] and
    [db.refresh(book)]. [created_on] is a [DateTime], whose SQLite bind
    processor takes only [datetime] and [date] objects; an [int] is bound as
    a 64-bit integer; the [String] columns have TEXT affinity and store an
    integer as its decimal text; the INTEGER PRIMARY KEY takes a text value
    only when SQLite converts it to an integer. *)
Definition stored_value (env : python_env) (k : string) (v : pyval) : exc pyval :=
  if String.eqb k "created_on" then Raise
  else match v with
       | PyNone => Ret PyNone
       | PyInt z =>
           if in_int64 z then
             if String.eqb k "id" then Ret (PyInt z) else Ret (PyStr (int_text z))
           else Raise
       | PyStr s =>
           if String.eqb k "id" then
             match sqlite_integer_of_text env s with
             | Some z => Ret (PyInt z)
             | None => Raise
             end
           else Ret (PyStr s)
       end.

(** The flush of the assigned columns of [b]: each is written with its
    last value. *)
Definition flush_column (env : python_env) (b : Book) (acc : exc Book) (k : string)
  : exc Book :=
  match acc with
  | Raise => Raise
  | Ret b' =>
      match get_column b k with
      | Some v =>
          match stored_value env k v with
          | Ret v' => Ret (setattr b' k v')
          | Raise => Raise
          end
      | None => Ret b'
      end
  end.

Definition flush_row (env : python_env) (b : Book) (assigned : list string) : exc Book :=
  fold_left (flush_column env b) assigned (Ret b).

(** SQLite lists a rowid table in rowid order. *)
Definition rowid_lt (b b0 : Book) : bool :=
  match id b, id b0 with
  | PyInt x, PyInt y => (x <? y)%Z
  | _, _ => false
  end.

Fixpoint insert_by_rowid (b : Book) (st : store) : store :=
  match st with
  | [] => [b]
  | b0 :: rest => if rowid_lt b b0 then b :: st else b0 :: insert_by_rowid b rest
  end.

(** The table once the row with id [book_id] is written as [b']: it keeps
    its place unless its id changed, and then moves to its new rowid. *)
Definition place_row (st : store) (book_id : Z) (b' : Book) : store :=
  if pyval_eqb (id b') (PyInt book_id) then replace_first st book_id b'
  else insert_by_rowid b' (remove_first st book_id).

(** [update]: returns the updated row, [None] when absent, or raises when
    an assignment, the flush or the commit fails. *)
Definition update (env : python_env) (st : store) (book_id : Z)
  (book_update : list (string * pyval)) : exc (option Book * store) :=
  match get_by_id st book_id with
  | None => Ret (None, st)
  | Some b =>
      match apply_update env b book_update with
      | Raise => Raise
      | Ret (b1, assigned) =>
          match flush_row env b1 assigned with
          | Raise => Raise
          | Ret b' =>
              if row_ok (remove_first st book_id) b'
              then Ret (Some b', place_row st book_id b')
              else Raise
          end
      end
  end.

(** [delete] *)
Definition delete (st : store) (book_id : Z) : bool * store :=
  match get_by_id st book_id with
  | None => (false, st)
  | Some _ => (true, remove_first st book_id)
  end.

(** ** [BookService] *)

(** The repository method a service call reaches. *)
Inductive repo_call : Type :=
| CallSearch (title_q author_q created_by_q : option string)
| CallGetAll (skip limit : nat).

(** Python slicing [l[i:j]] for [0 <= i], [0 <= j]. *)
Definition py_slice {A} (l : list A) (i j : nat) : list A :=
  skipn i (firstn j l).

Definition list_books (st : store) (skip limit : nat) : repo_call * list Book :=
  (CallGetAll skip limit, get_all st skip limit).

Definition search_books (st : store) (title_q author_q created_by_q : option string)
  (skip limit : nat) : repo_call * list Book :=
  if truthy title_q || truthy author_q || truthy created_by_q then
    let results := search st title_q author_q created_by_q in
    (CallSearch title_q author_q created_by_q, py_slice results skip (skip + limit))
  else list_books st skip limit.

(** ** Request validation (schemas.py, api/books.py) *)

(** Parsed JSON values of a request body and a response body. *)
Inductive json : Type :=
| JNull
| JBool (b : bool)
| JInt (z : Z)
| JStr (s : string)
| JArr (xs : list json)
| JObj (fields : list (string * json)).

(** A JSON object read by Python keeps the last binding of a key. *)
Definition body_lookup (body : list (string * json)) (k : string) : option json :=
  fold_left (fun acc kv => if String.eqb (fst kv) k then Some (snd kv) else acc)
            body None.

(** [Field(..., min_length=1, max_length=n)] on a [str]. *)
Definition str_in_bounds (s : string) (n : nat) : bool :=
  (1 <=? String.length s)%nat && (String.length s <=? n)%nat.

(** A required [str] field: missing, non-string or out-of-bounds fails. *)
Definition required_str (body : list (string * json)) (k : string) (n : nat)
  : option string :=
  match body_lookup body k with
  | Some (JStr s) => if str_in_bounds s n then Some s else None
  | _ => None
  end.

(** An [Optional[str]] update field under [model_dump(exclude_unset=True)]:
    unset ([None]), set to [null], or set to a bounded string. *)
Definition optional_str (body : list (string * json)) (k : string) (n : nat)
  : option (list (string * pyval)) :=
  match body_lookup body k with
  | None => Some []
  | Some JNull => Some [(k, PyNone)]
  | Some (JStr s) => if str_in_bounds s n then Some [(k, PyStr s)] else None
  | Some _ => None
  end.

(** The service call a validated request turns into. *)
Inductive service_call : Type :=
| SSearch (title_q author_q created_by_q : option string) (skip limit : nat)
| SGet (book_id : Z)
| SCreate (t a c : string)
| SUpdate (book_id : Z) (update_data : list (string * pyval))
| SDelete (book_id : Z).

(** Requests after routing; query integers and path ids already parsed,
    an absent query parameter is [None]. *)
Inductive request : Type :=
| GetBooks (skip limit : option Z) (title_q author_q created_by_q : option string)
| GetBook (book_id : Z)
| PostBook (body : list (string * json))
| PutBook (book_id : Z) (body : list (string * json))
| DeleteBook (book_id : Z).

(** FastAPI's parameter and body validation; [None] is a 422 response. *)
Definition validate (r : request) : option service_call :=
  match r with
  | GetBooks skip_q limit_q t a c =>
      let skip := match skip_q with Some s => s | None => 0%Z end in
      let limit := match limit_q with Some l => l | None => 100%Z end in
      if (0 <=? skip)%Z && (1 <=? limit)%Z && (limit <=? 1000)%Z
      then Some (SSearch t a c (Z.to_nat skip) (Z.to_nat limit))
      else None
  | GetBook i => Some (SGet i)
  | PostBook body =>
      match required_str body "title" 200, required_str body "author" 100,
            required_str body "created_by" 50 with
      | Some t, Some a, Some c => Some (SCreate t a c)
      | _, _, _ => None
      end
  | PutBook i body =>
      match optional_str body "title" 200, optional_str body "author" 100 with
      | Some dt, Some da => Some (SUpdate i (dt ++ da))
      | _, _ => None
      end
  | DeleteBook i => Some (SDelete i)
  end.

(** ** Responses *)

(** SQLite keeps a DATETIME as text [YYYY-MM-DD HH:MM:SS]; read back as a
    [datetime], pydantic writes it as ISO-8601 [YYYY-MM-DDTHH:MM:SS]. *)
Definition iso_of_sqlite_datetime (s : string) : string :=
  (substring 0 10 s ++ "T" ++ substring 11 (String.length s - 11) s)%string.

(** [BookResponse] built [from_attributes]: fields [title], [author]
    (inherited from [BookBase], with its bounds), then [id], [created_on],
    [created_by]; a row that does not validate gives [None]. *)
Definition book_response (b : Book) : option json :=
  match title b, author b, id b, created_on b, created_by b with
  | PyStr t, PyStr a, PyInt i, PyStr d, PyStr c =>
      if str_in_bounds t 200 && str_in_bounds a 100 then
        Some (JObj [("title", JStr t); ("author", JStr a); ("id", JInt i);
                    ("created_on", JStr (iso_of_sqlite_datetime d));
                    ("created_by", JStr c)])
      else None
  | _, _, _, _, _ => None
  end.

(** The largest rowid of the table. *)
Definition max_rowid_step (m : option Z) (b : Book) : option Z :=
  match id b with
  | PyInt i => Some (match m with Some m => Z.max m i | None => i end)
  | _ => m
  end.

Definition max_rowid (st : store) : option Z := fold_left max_rowid_step st None.

(** The rowid SQLite gives a row inserted without one: one more than the
    largest, 1 in an empty table. Once the largest is [int64_max] SQLite
    picks an unused one at random instead: the statements that depend on
    the new id assume the table below that. *)
Definition next_rowid (st : store) : Z :=
  match max_rowid st with
  | Some m => (m + 1)%Z
  | None => 1%Z
  end.

(** [create] on the row built from a [BookCreate] by [Book], with
    [book_data.model_dump()] as keywords, as the endpoints do: it sets neither [id] nor
    [created_on], so SQLite assigns the next rowid and [func.now()] the
    timestamp [now]. *)

Definition create (st : store) (now t a c : string) : Book * store :=
  let b := {| id := PyInt (next_rowid st); title := PyStr t; author := PyStr a;
              created_on := PyStr now; created_by := PyStr c |} in
  (b, st ++ [b]).

Definition respond_list (bs : list Book) : option json :=
  option_map JArr
    (fold_right (fun b acc => match book_response b, acc with
                              | Some j, Some js => Some (j :: js)
                              | _, _ => None
                              end) (Some []) bs).

(** An HTTP response: status, body, the store afterwards and the service
    calls made. *)
Record response : Type := mkResponse {
  status : Z;
  body : option json;
  final_store : store;
  service_calls : list service_call
}.

Definition ok_or_500 (code : Z) (j : option json) (st : store) (c : service_call)
  : response :=
  match j with
  | Some j => mkResponse code (Some j) st [c]
  | None => mkResponse 500 None st [c]
  end.

Definition run_service (env : python_env) (st : store) (now : string) (c : service_call) : response :=
  match c with
  | SSearch t a cb skip limit =>
      ok_or_500 200 (respond_list (snd (search_books st t a cb skip limit))) st c
  | SGet i =>
      match get_by_id st i with
      | Some b => ok_or_500 200 (book_response b) st c
      | None => mkResponse 404 None st [c]
      end
  | SCreate t a cb =>
      let '(b, st') := create st now t a cb in ok_or_500 201 (book_response b) st' c
  | SUpdate i d =>
      match update env st i d with
      | Ret (Some b, st') => ok_or_500 200 (book_response b) st' c
      | Ret (None, st') => mkResponse 404 None st' [c]
      | Raise => mkResponse 500 None st [c]
      end
  | SDelete i =>
      match delete st i with
      | (true, st') => mkResponse 204 None st' [c]
      | (false, st') => mkResponse 404 None st' [c]
      end
  end.

Definition handle (env : python_env) (st : store) (now : string) (r : request)
  : response :=
  match validate r with
  | None => mkResponse 422 None st []
  | Some c => run_service env st now c
  end.

(** ** Further repository queries, [main.py] and [seed.py] *)

(** [search_by_title]: [Book.title.contains(title)], no truthiness test. *)
Definition search_by_title (st : store) (t : string) : list Book :=
  filter (fun b => contains (title b) t) st.

(** [search_by_author]: [Book.author.contains(author)]. *)
Definition search_by_author (st : store) (a : string) : list Book :=
  filter (fun b => contains (author b) a) st.

(** [get_books] of [main.py]: the same filtering and slicing, written
    against the repository directly. *)
Definition main_get_books (st : store) (title_q author_q created_by_q : option string)
  (skip limit : nat) : list Book :=
  if truthy title_q || truthy author_q || truthy created_by_q then
    let books := search st title_q author_q created_by_q in
    py_slice books skip (skip + limit)
  else get_all st skip limit.

(** The endpoints of [main.py] call the repository directly: no
    [BookService] call is made. *)
Definition main_ok_or_500 (code : Z) (j : option json) (st : store) : response :=
  match j with
  | Some j => mkResponse code (Some j) st []
  | None => mkResponse 500 None st []
  end.

Definition main_run (env : python_env) (st : store) (now : string) (c : service_call) : response :=
  match c with
  | SSearch t a cb skip limit =>
      main_ok_or_500 200 (respond_list (main_get_books st t a cb skip limit)) st
  | SGet i =>
      match get_by_id st i with
      | Some b => main_ok_or_500 200 (book_response b) st
      | None => mkResponse 404 None st []
      end
  | SCreate t a cb =>
      let '(b, st') := create st now t a cb in main_ok_or_500 201 (book_response b) st'
  | SUpdate i d =>
      match update env st i d with
      | Ret (Some b, st') => main_ok_or_500 200 (book_response b) st'
      | Ret (None, st') => mkResponse 404 None st' []
      | Raise => mkResponse 500 None st []
      end
  | SDelete i =>
      match delete st i with
      | (true, st') => mkResponse 204 None st' []
      | (false, st') => mkResponse 404 None st' []
      end
  end.

Definition main_handle (env : python_env) (st : store) (now : string) (r : request)
  : response :=
  match validate r with
  | None => mkResponse 422 None st []
  | Some c => main_run env st now c
  end.



(** ** The spec's notions, stated apart from the code *)

(** Two strings equal up to ASCII letter case. *)
Fixpoint ci_eq_str (x y : string) : bool :=
  match x, y with
  | EmptyString, EmptyString => true
  | String a x', String b y' => eq_ci a b && ci_eq_str x' y'
  | _, _ => false
  end.

(** [x] occurs in [s] as a contiguous substring, ignoring letter case. *)
Definition ci_substring (x s : string) : Prop :=
  exists pre y suf, s = (pre ++ y ++ suf)%string /\ ci_eq_str x y = true.

(** [x] is a prefix of [t] ignoring letter case; decides [ci_substring]. *)
Fixpoint ci_prefixb (x t : string) : bool :=
  match x, t with
  | EmptyString, _ => true
  | String a x', String b t' => eq_ci a b && ci_prefixb x' t'
  | String _ _, EmptyString => false
  end.

Definition ci_substringb (x s : string) : bool :=
  existsb (ci_prefixb x) (suffixes s).

(** A search criterion is supplied (truthy) and the field matches it the
    way the adapter's [search] compares that field. *)
Definition criterion_holds (q : option string) (v : pyval) : bool :=
  match q with
  | Some x => truthy q && contains v x
  | None => false
  end.

Definition count_supplied (title_q author_q created_by_q : option string) : nat :=
  (if truthy title_q then 1 else 0) + (if truthy author_q then 1 else 0)
  + (if truthy created_by_q then 1 else 0).

(** No column of the row is NULL. *)
Definition row_not_null (b : Book) : Prop :=
  id b <> PyNone /\ title b <> PyNone /\ author b <> PyNone
  /\ created_on b <> PyNone /\ created_by b <> PyNone.

(** A persisted row: no NULL column and an integer id. *)
Definition row_wf (b : Book) : Prop :=
  row_not_null b /\ exists i, id b = PyInt i.

(** The table's invariant: valid rows and a primary key. *)
Definition store_ok (st : store) : Prop :=
  (forall b, In b st -> row_wf b) /\ NoDup (map id st).

(** An entry of an update dictionary that [update]'s loop acts on. *)
Definition kept_entry (env : python_env) (kv : string * pyval) : bool :=
  hasattr env (fst kv) && negb (is_none (snd kv)).

(** The inputs the spec calls malformed or out of range, per endpoint. *)
Definition required_field_bad (body : list (string * json)) (k : string) (n : nat)
  : Prop :=
  match body_lookup body k with
  | Some (JStr s) => String.length s = 0 \/ n < String.length s
  | _ => True
  end.

Definition optional_field_bad (body : list (string * json)) (k : string) (n : nat)
  : Prop :=
  match body_lookup body k with
  | None | Some JNull => False
  | Some (JStr s) => String.length s = 0 \/ n < String.length s
  | Some _ => True
  end.

Definition out_of_range (r : request) : Prop :=
  match r with
  | GetBooks skip_q limit_q _ _ _ =>
      (exists s, skip_q = Some s /\ (s < 0)%Z)
      \/ (exists l, limit_q = Some l /\ ((l < 1)%Z \/ (1000 < l)%Z))
  | PostBook body =>
      required_field_bad body "title" 200 \/ required_field_bad body "author" 100
      \/ required_field_bad body "created_by" 50
  | PutBook _ body =>
      optional_field_bad body "title" 200 \/ optional_field_bad body "author" 100
  | GetBook _ | DeleteBook _ => False
  end.

(** The JSON object [BookResponse] produces: [title], [author], [id],
    [created_on] as an ISO-8601 string, [created_by]. *)
Definition record_json_shape (j : json) : Prop :=
  exists t a i d c,
    j = JObj [("title", JStr t); ("author", JStr a); ("id", JInt i);
              ("created_on", JStr (iso_of_sqlite_datetime d)); ("created_by", JStr c)].

(** [x] has neither of [LIKE]'s wildcard characters. *)
Fixpoint no_like_wildcards (x : string) : bool :=
  match x with
  | EmptyString => true
  | String c x' =>
      negb (Ascii.eqb c "%"%char) && negb (Ascii.eqb c "_"%char) && no_like_wildcards x'
  end.

(** Two ids in increasing order, and a table listed in increasing id
    order, as SQLite lists a rowid table. *)
Definition id_lt (x y : pyval) : Prop :=
  exists m n, x = PyInt m /\ y = PyInt n /\ (m < n)%Z.

Definition rowid_sorted (st : store) : Prop := StronglySorted id_lt (map id st).

(** The response fields the spec names. *)
Definition spec_response_keys : list string :=
  ["id"; "title"; "author"; "createdAt"; "createdBy"].

(** ** Fixtures *)

Definition mk_row (i : Z) (t a c : string) : Book :=
  {| id := PyInt i; title := PyStr t; author := PyStr a;
     created_on := PyStr "2024-01-01 12:00:00"; created_by := PyStr c |}.

(** [multiple_sample_books] of tests/conftest.py, inserted in order. *)
Definition sample_store : store :=
  [mk_row 1 "Clean Code" "Robert Martin" "admin";
   mk_row 2 "The Pragmatic Programmer" "David Thomas" "admin";
   mk_row 3 "Design Patterns" "Gang of Four" "user1";
   mk_row 4 "Refactoring" "Martin Fowler" "user2"].

(** An attribute table and integer conversion for the examples: assigning
    [__class__], [__dict__], [__weakref__] or [_sa_instance_state] a [str]
    or an [int] raises; the class's other attributes listed take one on
    the instance; a decimal text converts to its integer. *)
Definition example_env : python_env := {|
  nonmapped_attr := fun k =>
    if existsb (String.eqb k) ["__class__"; "__dict__"; "__weakref__"; "_sa_instance_state"]
    then Some AttrRaises
    else if existsb (String.eqb k)
              ["__tablename__"; "__table_args__"; "__table__"; "__mapper__";
               "__repr__"; "__str__"; "__init__"; "__doc__"; "__module__";
               "metadata"; "registry"; "_sa_class_manager"]
    then Some AttrInstance
    else None;
  sqlite_integer_of_text := fun s => option_map Z.of_int (NilEmpty.int_of_string s)
|}.

(** Fifteen rows with ids 1..15. *)
Definition fifteen_store : store :=
  map (fun n => mk_row (Z.of_nat n) "Book" "Author" "admin") (seq 1 15).

Example search_title_code :
  map id (search sample_store (Some "Code") None None) = [PyInt 1].
Proof. vm_compute. reflexivity. Qed.

Example search_or_two :
  map id (search sample_store (Some "Design") (Some "Robert Martin") None)
  = [PyInt 1; PyInt 3].
Proof. vm_compute. reflexivity. Qed.

Example search_no_criteria : search sample_store None None (Some "") = sample_store.
Proof. reflexivity. Qed.

(** ** LIKE and case-insensitive substrings *)

Lemma in_suffixes_app : forall pre s, In s (suffixes (pre ++ s)%string).
Proof.
  induction pre as [|c pre IH]; intros s; simpl.
  - destruct s; simpl; auto.
  - right. apply IH.
Qed.

Lemma like_empty_pattern_percent : forall s, like "%" s = true.
Proof.
  intros s. simpl. apply existsb_exists. exists EmptyString. split; [|reflexivity].
  induction s as [|c s IH]; simpl; auto.
Qed.

(** A pattern equal to a prefix of the text up to case, then [%]. *)
Lemma like_ci_then_percent : forall x y suf,
  ci_eq_str x y = true -> like (x ++ "%")%string (y ++ suf)%string = true.
Proof.
  induction x as [|a x IH]; intros [|b y] suf H; simpl in H; try discriminate.
  - apply like_empty_pattern_percent.
  - apply andb_prop in H as [Hab Hxy].
    simpl. destruct (Ascii.eqb a "%"%char).
    + apply orb_true_iff. right. apply existsb_exists.
      exists (y ++ suf)%string. split.
      * destruct (y ++ suf)%string; simpl; auto.
      * apply IH. exact Hxy.
    + rewrite Hab, orb_true_r. simpl. apply IH. exact Hxy.
Qed.

Lemma like_percent_skip : forall q pre s,
  like q s = true -> like (String "%" q) (pre ++ s)%string = true.
Proof.
  intros q pre s H. simpl. apply existsb_exists. exists s.
  split; [apply in_suffixes_app | exact H].
Qed.

(** [contains] finds every case-insensitive substring. *)
Lemma contains_of_ci_substring : forall x s,
  ci_substring x s -> contains (PyStr s) x = true.
Proof.
  intros x s (pre & y & suf & -> & Hxy). unfold contains; simpl.
  change ("%" ++ x ++ "%")%string with (String "%" (x ++ "%")).
  apply like_percent_skip. apply like_ci_then_percent. exact Hxy.
Qed.

Lemma ci_prefixb_of_eq : forall x y suf,
  ci_eq_str x y = true -> ci_prefixb x (y ++ suf)%string = true.
Proof.
  induction x as [|a x IH]; intros [|b y] suf H; simpl in *; try discriminate; auto.
  apply andb_prop in H as [Hab Hxy]. rewrite Hab. simpl. apply IH. exact Hxy.
Qed.

Lemma ci_substringb_of_ci_substring : forall x s,
  ci_substring x s -> ci_substringb x s = true.
Proof.
  intros x s (pre & y & suf & -> & Hxy). unfold ci_substringb.
  apply existsb_exists. exists (y ++ suf)%string. split.
  - apply in_suffixes_app.
  - apply ci_prefixb_of_eq. exact Hxy.
Qed.

(** ** Search *)

Lemma search_conditions_holds : forall t a c b,
  existsb (fun cond => cond b) (search_conditions t a c)
  = criterion_holds t (title b) || criterion_holds a (author b)
    || criterion_holds c (created_by b).
Proof.
  intros [t|] [a|] [c|] b; unfold search_conditions, criterion_holds;
    repeat match goal with |- context [truthy (Some ?q)] => destruct (truthy (Some q)) end;
    simpl; rewrite ?orb_false_r, ?orb_assoc; reflexivity.
Qed.

Lemma search_conditions_nil : forall t a c,
  search_conditions t a c = [] <-> truthy t || truthy a || truthy c = false.
Proof.
  intros [t|] [a|] [c|]; unfold search_conditions; cbv beta iota;
    repeat match goal with |- context [truthy (Some ?q)] => destruct (truthy (Some q)) end;
    simpl; split; intros H; try reflexivity; discriminate H.
Qed.

(** With a criterion supplied, [search] is the store filtered by the
    disjunction of the supplied criteria, in store order. *)
Lemma search_filter : forall st t a c,
  truthy t || truthy a || truthy c = true ->
  search st t a c
  = filter (fun b => criterion_holds t (title b) || criterion_holds a (author b)
                     || criterion_holds c (created_by b)) st.
Proof.
  intros st t a c H. unfold search.
  destruct (search_conditions t a c) as [|cond conds] eqn:E.
  - apply search_conditions_nil in E. congruence.
  - rewrite <- E. apply filter_ext. intros b. apply search_conditions_holds.
Qed.

Lemma truthy_some : forall c, c <> ""%string -> truthy (Some c) = true.
Proof.
  intros c Hc. simpl. destruct (String.eqb_spec c "") as [E|E]; [contradiction|reflexivity].
Qed.

(** Every row whose title contains the criterion up to case is found. *)
Lemma search_title_finds_ci_substring : forall st t b s,
  t <> ""%string -> In b st -> title b = PyStr s -> ci_substring t s ->
  In b (search st (Some t) None None).
Proof.
  intros st t b s Ht Hin Hs Hsub.
  rewrite search_filter by (rewrite truthy_some by exact Ht; reflexivity).
  apply filter_In. split; [exact Hin|].
  unfold criterion_holds. rewrite truthy_some by exact Ht. rewrite Hs.
  rewrite contains_of_ci_substring by exact Hsub. reflexivity.
Qed.

(** C1. When more than one of title, author and created_by is supplied,
    [search] returns the rows of the store (in store order) that satisfy
    at least one supplied criterion: the criteria are combined with OR. *)
Theorem search_or_semantics : forall st t a c,
  (2 <= count_supplied t a c)%nat ->
  search st t a c
  = filter (fun b => criterion_holds t (title b) || criterion_holds a (author b)
                     || criterion_holds c (created_by b)) st.
Proof.
  intros st t a c H. apply search_filter.
  unfold count_supplied in H.
  destruct (truthy t), (truthy a), (truthy c); simpl in *; try reflexivity; lia.
Qed.

Lemma search_or_semantics_witness :
  (2 <= count_supplied (Some "Design") (Some "Robert Martin") None)%nat
  /\ map id (search sample_store (Some "Design") (Some "Robert Martin") None)
     = [PyInt 1; PyInt 3].
Proof.
  assert (H : (2 <= count_supplied (Some "Design") (Some "Robert Martin") None)%nat)
    by (vm_compute; lia).
  split; [exact H|].
  rewrite (search_or_semantics sample_store (Some "Design") (Some "Robert Martin") None H).
  vm_compute. reflexivity.
Defined.

(** C2 as stated: a created_by criterion only selects rows whose
    created_by equals it.  False: "adm" selects the row created by "admin". *)
Lemma search_created_by_not_exact :
  ~ (forall st c b, c <> ""%string -> In b (search st None None (Some c)) ->
                    created_by b = PyStr c).
Proof.
  intros H.
  assert (Hin : In (mk_row 1 "Clean Code" "Robert Martin" "admin")
                   (search sample_store None None (Some "adm")))
    by (vm_compute; left; reflexivity).
  specialize (H sample_store "adm" _ ltac:(discriminate) Hin).
  discriminate H.
Qed.

(** C2, corrected. The primary [search] path matches created_by like
    title and author, with [LIKE '%c%']: the result is the store filtered
    by that match, and a row whose created_by contains the criterion up to
    case is included even when it is not equal to it. *)
Theorem search_created_by_partial : forall st c,
  c <> ""%string ->
  search st None None (Some c) = filter (fun b => contains (created_by b) c) st
  /\ (forall b s, In b st -> created_by b = PyStr s -> ci_substring c s ->
                  In b (search st None None (Some c))).
Proof.
  intros st c Hc.
  assert (E : search st None None (Some c)
              = filter (fun b => contains (created_by b) c) st).
  { rewrite search_filter by (rewrite truthy_some by exact Hc; reflexivity).
    apply filter_ext. intros b. unfold criterion_holds.
    rewrite truthy_some by exact Hc. reflexivity. }
  split; [exact E|].
  intros b s Hin Hs Hsub. rewrite E. apply filter_In. split; [exact Hin|].
  rewrite Hs. apply contains_of_ci_substring. exact Hsub.
Qed.

Lemma search_created_by_partial_witness :
  "adm"%string <> ""%string
  /\ In (mk_row 1 "Clean Code" "Robert Martin" "admin")
        (search sample_store None None (Some "adm")).
Proof.
  assert (Hc : "adm"%string <> ""%string) by discriminate.
  split; [exact Hc|].
  apply (proj2 (search_created_by_partial sample_store "adm" Hc)
               (mk_row 1 "Clean Code" "Robert Martin" "admin") "admin").
  - left. reflexivity.
  - reflexivity.
  - exists ""%string, "adm"%string, "in"%string. split; reflexivity.
Defined.

(** C3. The title criterion is a LIKE pattern whose [_] and [%] are not
    escaped, so it is not a plain case-insensitive substring match:
    "C_ean" selects "Clean Code", which does not contain "c_ean". *)
Theorem search_title_wildcard_bug :
  In (mk_row 1 "Clean Code" "Robert Martin" "admin")
     (search sample_store (Some "C_ean") None None)
  /\ ~ ci_substring "C_ean" "Clean Code".
Proof.
  split.
  - vm_compute. left. reflexivity.
  - intros Hsub. apply ci_substringb_of_ci_substring in Hsub.
    vm_compute in Hsub. discriminate Hsub.
Qed.

(** ** Service: search and pagination *)




Lemma NoDup_app_disjoint : forall {A} (l1 l2 : list A) x,
  NoDup (l1 ++ l2) -> In x l1 -> ~ In x l2.
Proof.
  intros A l1 l2 x. induction l1 as [|y l1 IH]; intros Hnd Hin; [destruct Hin|].
  inversion Hnd as [|? ? Hy Hnd']; subst.
  destruct Hin as [<-|Hin].
  - intros H2. apply Hy. apply in_or_app. right. exact H2.
  - apply IH; assumption.
Qed.

Lemma in_firstn : forall {A} n (l : list A) x, In x (firstn n l) -> In x l.
Proof.
  intros A n l x H. rewrite <- (firstn_skipn n l). apply in_or_app. left. exact H.
Qed.

(** C9. On a store of at least 15 rows with a primary key, the unfiltered
    listing with skip=5, limit=5 is exactly the 6th to 10th rows in store
    order, and shares no row with the listing with skip=0, limit=5. *)
Theorem list_second_page : forall st,
  NoDup (map id st) -> (15 <= List.length st)%nat ->
  List.length (snd (search_books st None None None 5 5)) = 5%nat
  /\ (forall k, (k < 5)%nat ->
      nth_error (snd (search_books st None None None 5 5)) k = nth_error st (5 + k))
  /\ (forall b, In b (snd (search_books st None None None 5 5)) ->
      ~ In b (snd (search_books st None None None 0 5))).
Proof.
  intros st Hnd Hlen. cbn [search_books truthy orb list_books snd]. unfold get_all.
  split; [|split].
  - rewrite length_firstn, length_skipn. lia.
  - intros k Hk. rewrite nth_error_firstn.
    destruct (Nat.ltb_spec k 5); [|lia]. apply nth_error_skipn.
  - intros b Hb Hb0. simpl skipn in Hb0.
    apply NoDup_map_inv in Hnd.
    rewrite <- (firstn_skipn 5 st) in Hnd.
    apply (NoDup_app_disjoint _ _ b Hnd Hb0).
    apply in_firstn in Hb. exact Hb.
Qed.

Lemma list_second_page_witness :
  NoDup (map id fifteen_store) /\ (15 <= List.length fifteen_store)%nat
  /\ nth_error (snd (search_books fifteen_store None None None 5 5)) 0
     = Some (mk_row 6 "Book" "Author" "admin").
Proof.
  assert (Hnd : NoDup (map id fifteen_store)).
  { vm_compute. repeat constructor; simpl; intros Hin;
      repeat (destruct Hin as [Hin|Hin]; [discriminate Hin|]); exact Hin. }
  assert (Hlen : (15 <= List.length fifteen_store)%nat) by (vm_compute; lia).
  split; [exact Hnd|]. split; [exact Hlen|].
  rewrite (proj1 (proj2 (list_second_page fifteen_store Hnd Hlen)) 0%nat)
    by lia.
  vm_compute. reflexivity.
Defined.

(** ** Update and delete *)

Lemma pyval_eqb_spec : forall x y, pyval_eqb x y = true <-> x = y.
Proof.
  intros [|a|a] [|b|b]; simpl; split; intros H; try discriminate; auto.
  - apply Z.eqb_eq in H. subst. reflexivity.
  - injection H as ->. apply Z.eqb_refl.
  - apply String.eqb_eq in H. subst. reflexivity.
  - injection H as ->. apply String.eqb_refl.
Qed.

Ltac destruct_key_tests :=
  repeat match goal with
         | |- context [String.eqb ?x ?y] => destruct (String.eqb_spec x y); subst
         end.

Lemma get_column_setattr_other : forall b k k' v,
  k <> k' -> get_column (setattr b k' v) k = get_column b k.
Proof.
  intros b k k' v Hne. unfold get_column, setattr.
  destruct_key_tests; simpl; congruence.
Qed.

Lemma row_not_null_setattr : forall b k v,
  row_not_null b -> v <> PyNone -> row_not_null (setattr b k v).
Proof.
  intros b k v Hb Hv. unfold setattr.
  destruct_key_tests; unfold row_not_null in *; simpl; tauto.
Qed.

Lemma update_field_raise : forall env d,
  fold_left (update_field env) d Raise = Raise.
Proof. intros env d. induction d as [|kv d IH]; [reflexivity|]. exact IH. Qed.

(** Entries whose value is [None], and keys that are not attributes, are
    skipped by the loop of [update]. *)
Lemma update_field_skipped : forall env o kv,
  kept_entry env kv = false -> update_field env o kv = o.
Proof.
  intros env [|[b a]] [k v] H; [reflexivity|].
  unfold kept_entry in H. cbn [fst snd] in H.
  unfold update_field. cbv beta iota. rewrite H. reflexivity.
Qed.

Lemma fold_update_filter : forall env d o,
  fold_left (update_field env) d o
  = fold_left (update_field env) (filter (kept_entry env) d) o.
Proof.
  intros env d. induction d as [|kv d IH]; intros o; [reflexivity|].
  cbn [fold_left filter]. destruct (kept_entry env kv) eqn:E; cbn [fold_left].
  - apply IH.
  - rewrite (update_field_skipped env o kv E). apply IH.
Qed.

Lemma apply_update_filter : forall env b d,
  apply_update env b d = apply_update env b (filter (kept_entry env) d).
Proof. intros env b d. apply fold_update_filter. Qed.

(** One step of the loop: it raises, assigns a column a value other than
    [None], or leaves the instance as it was. *)
Lemma update_field_step : forall env b a k v,
  update_field env (Ret (b, a)) (k, v) = Raise
  \/ (update_field env (Ret (b, a)) (k, v) = Ret (setattr b k v, k :: a)
      /\ v <> PyNone /\ is_column k = true)
  \/ update_field env (Ret (b, a)) (k, v) = Ret (b, a).
Proof.
  intros env b a k v. unfold update_field. cbv beta iota.
  destruct (hasattr env k && negb (is_none v)) eqn:E; [|right; right; reflexivity].
  destruct (is_column k) eqn:Ec.
  - right; left. split; [reflexivity|]. split; [|reflexivity].
    apply andb_prop in E as [_ E]. destruct v; simpl in E; discriminate.
  - destruct (nonmapped_attr env k) as [[|]|]; auto.
Qed.

(** A column that only [None] values are given for is neither changed nor
    recorded as assigned by the loop. *)
Lemma fold_update_untouched : forall env k d b0 a0 b1 a1,
  (forall v, In (k, v) d -> v = PyNone) ->
  fold_left (update_field env) d (Ret (b0, a0)) = Ret (b1, a1) ->
  get_column b1 k = get_column b0 k /\ (In k a1 -> In k a0).
Proof.
  intros env k d. induction d as [|[k' v'] d IH]; intros b0 a0 b1 a1 Hk H.
  - simpl in H. injection H as <- <-. split; auto.
  - cbn [fold_left] in H.
    assert (Hk' : forall v, In (k, v) d -> v = PyNone)
      by (intros v Hin; apply Hk; right; exact Hin).
    destruct (update_field_step env b0 a0 k' v') as [E|[(E & Hv & _)|E]];
      rewrite E in H.
    + rewrite update_field_raise in H. discriminate H.
    + destruct (String.eqb_spec k k') as [->|Hne].
      * exfalso. apply Hv. apply Hk. left. reflexivity.
      * destruct (IH _ _ _ _ Hk' H) as [H1 H2].
        split; [rewrite H1; apply get_column_setattr_other; exact Hne|].
        intros Ha. destruct (H2 Ha) as [Heq|Ha']; [congruence|exact Ha'].
    + exact (IH _ _ _ _ Hk' H).
Qed.

Lemma fold_update_not_null : forall env d b0 a0 b1 a1,
  row_not_null b0 ->
  fold_left (update_field env) d (Ret (b0, a0)) = Ret (b1, a1) -> row_not_null b1.
Proof.
  intros env d. induction d as [|[k v] d IH]; intros b0 a0 b1 a1 Hb H.
  - simpl in H. injection H as <- _. exact Hb.
  - cbn [fold_left] in H.
    destruct (update_field_step env b0 a0 k v) as [E|[(E & Hv & _)|E]];
      rewrite E in H.
    + rewrite update_field_raise in H. discriminate H.
    + exact (IH _ _ _ _ (row_not_null_setattr b0 k v Hb Hv) H).
    + exact (IH _ _ _ _ Hb H).
Qed.

Lemma flush_column_raise : forall env b l,
  fold_left (flush_column env b) l Raise = Raise.
Proof. intros env b l. induction l as [|k l IH]; [reflexivity|]. exact IH. Qed.

Lemma flush_column_step : forall env b b0 k,
  flush_column env b (Ret b0) k = Raise
  \/ flush_column env b (Ret b0) k = Ret b0
  \/ exists v', flush_column env b (Ret b0) k = Ret (setattr b0 k v').
Proof.
  intros env b b0 k. unfold flush_column. cbv beta iota.
  destruct (get_column b k) as [v|]; [|right; left; reflexivity].
  destruct (stored_value env k v) as [|v'].
  - left. reflexivity.
  - right; right. exists v'. reflexivity.
Qed.

(** The flush writes only the assigned columns. *)
Lemma flush_frame : forall env b k l b0 b',
  ~ In k l -> fold_left (flush_column env b) l (Ret b0) = Ret b' ->
  get_column b' k = get_column b0 k.
Proof.
  intros env b k l. induction l as [|k0 l IH]; intros b0 b' Hk H.
  - simpl in H. injection H as <-. reflexivity.
  - cbn [fold_left] in H.
    assert (Hk' : ~ In k l) by (intros Hin; apply Hk; right; exact Hin).
    destruct (flush_column_step env b b0 k0) as [E|[E|(v' & E)]]; rewrite E in H.
    + rewrite flush_column_raise in H. discriminate H.
    + exact (IH _ _ Hk' H).
    + rewrite (IH _ _ Hk' H). apply get_column_setattr_other.
      intros ->. apply Hk. left. reflexivity.
Qed.

(** The loop and the flush change no column absent from the dictionary. *)
Lemma update_row_frame : forall env b d b1 a1 b' k,
  apply_update env b d = Ret (b1, a1) -> flush_row env b1 a1 = Ret b' ->
  (forall v, In (k, v) d -> v = PyNone) -> get_column b' k = get_column b k.
Proof.
  intros env b d b1 a1 b' k Ea Ef Hk.
  destruct (fold_update_untouched env k d b [] b1 a1 Hk Ea) as [H1 H2].
  rewrite <- H1. exact (flush_frame env b1 k a1 b1 b' H2 Ef).
Qed.

Lemma negb_is_none : forall v, negb (is_none v) = true -> v <> PyNone.
Proof. intros [] H; discriminate. Qed.

(** What the commit's checks guarantee of a row. *)
Lemma row_ok_spec : forall others b,
  row_ok others b = true ->
  row_not_null b /\ (exists j, id b = PyInt j)
  /\ existsb (fun o => pyval_eqb (id o) (id b)) others = false.
Proof.
  intros others b H. unfold row_ok in H.
  apply andb_prop in H as [H Hex]. apply andb_prop in H as [H Hm].
  apply andb_prop in H as [H H5]. apply andb_prop in H as [H H4].
  apply andb_prop in H as [H1 H3]. apply andb_prop in H1 as [H1 H2].
  split; [unfold row_not_null; repeat split; apply negb_is_none; assumption|].
  split; [destruct (id b); try discriminate Hm; eexists; reflexivity|].
  apply negb_true_iff in Hex. exact Hex.
Qed.

Lemma replace_first_perm : forall st i b',
  get_by_id st i <> None -> Permutation (replace_first st i b') (b' :: remove_first st i).
Proof.
  unfold get_by_id.
  induction st as [|b st IH]; intros i b' H; simpl in *; [contradiction|].
  destruct (pyval_eqb (id b) (PyInt i)); [apply Permutation_refl|].
  eapply perm_trans; [apply perm_skip, IH, H|]. apply perm_swap.
Qed.

Lemma insert_by_rowid_perm : forall b rest,
  Permutation (insert_by_rowid b rest) (b :: rest).
Proof.
  intros b rest. induction rest as [|b0 rest IH]; simpl; [apply Permutation_refl|].
  destruct (rowid_lt b b0); [apply Permutation_refl|].
  eapply perm_trans; [apply perm_skip, IH|]. apply perm_swap.
Qed.

(** Writing the row back gives the other rows and the new one. *)
Lemma place_row_perm : forall st i b',
  get_by_id st i <> None -> Permutation (place_row st i b') (b' :: remove_first st i).
Proof.
  intros st i b' H. unfold place_row.
  destruct (pyval_eqb (id b') (PyInt i)).
  - apply replace_first_perm. exact H.
  - apply insert_by_rowid_perm.
Qed.


Lemma get_by_id_some : forall st i b,
  get_by_id st i = Some b -> In b st /\ id b = PyInt i.
Proof.
  intros st i b H. apply find_some in H as [Hin Hid].
  split; [exact Hin|]. apply pyval_eqb_spec. exact Hid.
Qed.


Lemma find_none_all : forall {A} (f : A -> bool) l,
  (forall x, In x l -> f x = false) -> find f l = None.
Proof.
  intros A f l. induction l as [|x l IH]; intros H; simpl; [reflexivity|].
  rewrite (H x (or_introl eq_refl)). apply IH. intros y Hy. apply H. right. exact Hy.
Qed.

(** Under the primary key, no row keeps the id that [remove_first] removed. *)
Lemma get_by_id_remove_first : forall st i,
  NoDup (map id st) -> get_by_id (remove_first st i) i = None.
Proof.
  unfold get_by_id.
  induction st as [|b st IH]; intros i Hnd; simpl; [reflexivity|].
  inversion Hnd as [|? ? Hb Hnd']; subst.
  destruct (pyval_eqb (id b) (PyInt i)) eqn:E.
  - apply find_none_all. intros x Hx.
    destruct (pyval_eqb (id x) (PyInt i)) eqn:Ex; [|reflexivity].
    exfalso. apply Hb. apply pyval_eqb_spec in E, Ex.
    rewrite E, <- Ex. apply in_map. exact Hx.
  - simpl. rewrite E. apply IH. exact Hnd'.
Qed.

Lemma replace_first_same : forall st i b,
  get_by_id st i = Some b -> replace_first st i b = st.
Proof.
  unfold get_by_id.
  induction st as [|b0 st IH]; intros i b Hb; simpl in *; [discriminate|].
  destruct (pyval_eqb (id b0) (PyInt i)) eqn:E.
  - injection Hb as <-. reflexivity.
  - rewrite (IH i b Hb). reflexivity.
Qed.

Lemma is_none_false : forall v, v <> PyNone -> is_none v = false.
Proof. intros [] H; [contradiction|reflexivity|reflexivity]. Qed.

Lemma existsb_of_find_none : forall {A} (f : A -> bool) l,
  find f l = None -> existsb f l = false.
Proof.
  intros A f l H. destruct (existsb f l) eqn:E; [|reflexivity].
  apply existsb_exists in E as (x & Hx & Hfx).
  rewrite (find_none f l H x Hx) in Hfx. discriminate Hfx.
Qed.

(** The row found by id passes the commit's checks unchanged. *)
Lemma row_ok_found : forall st i b,
  store_ok st -> get_by_id st i = Some b -> row_ok (remove_first st i) b = true.
Proof.
  intros st i b [Hwf Hnd] Hb.
  destruct (get_by_id_some st i b Hb) as [Hin Hid].
  destruct (Hwf b Hin) as [(H1 & H2 & H3 & H4 & H5) _].
  unfold row_ok. rewrite !is_none_false by assumption. rewrite Hid. simpl.
  rewrite existsb_of_find_none; [reflexivity|].
  exact (get_by_id_remove_first st i Hnd).
Qed.

Lemma sample_store_ok : store_ok sample_store.
Proof.
  split.
  - intros b Hin. simpl in Hin.
    repeat (destruct Hin as [<-|Hin];
            [unfold row_wf, row_not_null; simpl;
             repeat split; try discriminate; eexists; reflexivity|]).
    destruct Hin.
  - vm_compute. repeat constructor; simpl; intros Hin;
      repeat (destruct Hin as [Hin|Hin]; [discriminate Hin|]); exact Hin.
Qed.





(** C10. On an existing row, [update] ignores every entry whose value is
    [None] and every key that is not an attribute of [Book]: updating with
    the dictionary equals updating with those entries removed; a column
    given only [None] keeps its value; the loop makes no column of a row
    without NULLs NULL, and no committed row has a NULL column; and a
    dictionary made only of such entries succeeds and leaves the row and
    the store as they were. *)
Theorem update_skips_none_and_unknown : forall env st i d b,
  get_by_id st i = Some b ->
  update env st i d = update env st i (filter (kept_entry env) d)
  /\ (forall k, In k columns -> (forall v, In (k, v) d -> v = PyNone) ->
      forall b' st', update env st i d = Ret (Some b', st') -> get_column b' k = get_column b k)
  /\ (row_not_null b -> forall b1 a1, apply_update env b d = Ret (b1, a1) -> row_not_null b1)
  /\ (forall b' st', update env st i d = Ret (Some b', st') -> row_not_null b')
  /\ (store_ok st -> filter (kept_entry env) d = [] -> update env st i d = Ret (Some b, st)).
Proof.
  intros env st i d b Hb.
  assert (Hf : update env st i d = update env st i (filter (kept_entry env) d)).
  { unfold update. rewrite Hb. rewrite <- (apply_update_filter env b d). reflexivity. }
  split; [exact Hf|]. split; [|split; [|split]].
  - intros k _ Hk b' st' Hu. unfold update in Hu. rewrite Hb in Hu.
    destruct (apply_update env b d) as [|[b1 a1]] eqn:Ea; [discriminate Hu|].
    destruct (flush_row env b1 a1) as [|b2] eqn:Ef; [discriminate Hu|].
    destruct (row_ok (remove_first st i) b2); [|discriminate Hu].
    injection Hu as <- _. exact (update_row_frame env b d b1 a1 b2 k Ea Ef Hk).
  - intros Hnn b1 a1 Ea. exact (fold_update_not_null env d b [] b1 a1 Hnn Ea).
  - intros b' st' Hu. unfold update in Hu. rewrite Hb in Hu.
    destruct (apply_update env b d) as [|[b1 a1]]; [discriminate Hu|].
    destruct (flush_row env b1 a1) as [|b2]; [discriminate Hu|].
    destruct (row_ok (remove_first st i) b2) eqn:Ek; [|discriminate Hu].
    injection Hu as <- _. exact (proj1 (row_ok_spec _ _ Ek)).
  - intros Hok Hnil. rewrite Hf, Hnil. unfold update. rewrite Hb.
    unfold apply_update, flush_row. cbn [fold_left].
    rewrite (row_ok_found st i b Hok Hb). unfold place_row.
    replace (pyval_eqb (id b) (PyInt i)) with true
      by (symmetry; apply pyval_eqb_spec; exact (proj2 (get_by_id_some st i b Hb))).
    rewrite (replace_first_same st i b Hb). reflexivity.
Qed.

Lemma update_skips_none_and_unknown_witness :
  update example_env sample_store 1 [("title", PyNone); ("isbn", PyStr "978-0132350884")]
  = Ret (Some (mk_row 1 "Clean Code" "Robert Martin" "admin"), sample_store).
Proof.
  assert (Hb : get_by_id sample_store 1
               = Some (mk_row 1 "Clean Code" "Robert Martin" "admin")) by reflexivity.
  apply (proj2 (proj2 (proj2 (proj2 (update_skips_none_and_unknown example_env
                                       sample_store 1
                                       [("title", PyNone); ("isbn", PyStr "978-0132350884")]
                                       _ Hb))))).
  - exact sample_store_ok.
  - vm_compute. reflexivity.
Defined.

(** ** Validation and responses *)

Lemma str_in_bounds_false : forall s n,
  String.length s = 0%nat \/ (n < String.length s)%nat -> str_in_bounds s n = false.
Proof.
  intros s n H. unfold str_in_bounds.
  destruct (Nat.leb_spec 1 (String.length s)), (Nat.leb_spec (String.length s) n);
    simpl; try reflexivity; lia.
Qed.

Lemma required_str_bad : forall body k n,
  required_field_bad body k n -> required_str body k n = None.
Proof.
  intros body k n H. unfold required_field_bad, required_str in *.
  destruct (body_lookup body k) as [[| | | s | |]|]; try reflexivity.
  rewrite str_in_bounds_false by exact H. reflexivity.
Qed.

Lemma optional_str_bad : forall body k n,
  optional_field_bad body k n -> optional_str body k n = None.
Proof.
  intros body k n H. unfold optional_field_bad, optional_str in *.
  destruct (body_lookup body k) as [[| | | s | |]|]; try reflexivity; try contradiction.
  rewrite str_in_bounds_false by exact H. reflexivity.
Qed.

(** C7. A request with a missing or non-string required field, a string
    field that is empty or over its bound (title 200, author 100,
    created_by 50 on create; title and author on update), skip below 0 or
    limit outside 1..1000 gets a 422 response: no service call is made and
    the store is unchanged. *)
Theorem invalid_request_rejected : forall env st now r,
  out_of_range r -> handle env st now r = mkResponse 422 None st [].
Proof.
  intros env st now r H. unfold handle.
  destruct r as [skip_q limit_q t a c|i|body|i body|i]; simpl in H.
  - unfold validate.
    destruct H as [(s & -> & Hs)|(l & -> & Hl)].
    + destruct (Z.leb_spec 0 s); [lia|]. reflexivity.
    + destruct (Z.leb_spec 1 l), (Z.leb_spec l 1000); try lia;
        rewrite ?andb_false_r; reflexivity.
  - contradiction.
  - unfold validate.
    destruct H as [H|[H|H]]; apply required_str_bad in H; rewrite H;
      [reflexivity| |];
      destruct (required_str body "title" 200); try reflexivity;
      destruct (required_str body "author" 100); reflexivity.
  - unfold validate.
    destruct H as [H|H]; apply optional_str_bad in H; rewrite H; [reflexivity|].
    destruct (optional_str body "title" 200); reflexivity.
  - contradiction.
Qed.

Lemma invalid_request_rejected_witness :
  handle example_env sample_store "2024-01-02 00:00:00" (GetBooks (Some 0%Z) (Some 1001%Z) None None None)
  = mkResponse 422 None sample_store [].
Proof.
  apply invalid_request_rejected. simpl. right. exists 1001%Z. split; [reflexivity|lia].
Defined.

Lemma book_response_shape : forall b j,
  book_response b = Some j -> record_json_shape j.
Proof.
  intros b j H. unfold book_response in H.
  destruct (title b), (author b), (id b), (created_on b), (created_by b);
    try discriminate H.
  destruct (str_in_bounds s 200 && str_in_bounds s0 100); [|discriminate H].
  injection H as <-. do 5 eexists. reflexivity.
Qed.

Lemma respond_list_shape : forall bs j,
  respond_list bs = Some j -> exists js, j = JArr js /\ Forall record_json_shape js.
Proof.
  intros bs. unfold respond_list.
  induction bs as [|b bs IH]; intros j H; simpl in H.
  - injection H as <-. exists []. split; [reflexivity|constructor].
  - destruct (book_response b) as [jb|] eqn:Eb; [|discriminate H].
    destruct (fold_right _ (Some []) bs) as [js|] eqn:Ejs; [|discriminate H].
    injection H as <-. exists (jb :: js). split; [reflexivity|].
    constructor; [exact (book_response_shape b jb Eb)|].
    destruct (IH (JArr js) eq_refl) as (js' & Ejs' & Hall).
    injection Ejs' as <-. exact Hall.
Qed.

Lemma ok_or_500_success : forall code j st c,
  status (ok_or_500 code j st c) <> 500%Z ->
  exists j', j = Some j' /\ body (ok_or_500 code j st c) = Some j'.
Proof.
  intros code [j|] st c H; simpl in *; [eauto|contradiction].
Qed.

(** C8 as stated: a successful record body has the keys [id], [title],
    [author], [createdAt], [createdBy]. False: the keys are snake_case. *)
Lemma response_keys_not_camel_case :
  ~ (forall env st now r fields,
       (status (handle env st now r) = 200%Z \/ status (handle env st now r) = 201%Z) ->
       body (handle env st now r) = Some (JObj fields) ->
       forall k, In k (map fst fields) <-> In k spec_response_keys).
Proof.
  intros H.
  specialize (H example_env sample_store "2024-01-02 00:00:00" (GetBook 1)
                [("title", JStr "Clean Code"); ("author", JStr "Robert Martin");
                 ("id", JInt 1); ("created_on", JStr "2024-01-01T12:00:00");
                 ("created_by", JStr "admin")]
                (or_introl eq_refl)).
  assert (Hb : body (handle example_env sample_store "2024-01-02 00:00:00" (GetBook 1))
               = Some (JObj [("title", JStr "Clean Code"); ("author", JStr "Robert Martin");
                             ("id", JInt 1); ("created_on", JStr "2024-01-01T12:00:00");
                             ("created_by", JStr "admin")]))
    by (vm_compute; reflexivity).
  specialize (H Hb "created_on"%string).
  assert (Hin : In "created_on"%string spec_response_keys)
    by (apply H; simpl; right; right; right; left; reflexivity).
  simpl in Hin. repeat (destruct Hin as [Hin|Hin]; [discriminate Hin|]). exact Hin.
Qed.

(** A response whose status is excluded by a hypothesis. *)
Ltac absurd_status :=
  exfalso; match goal with H : status _ <> _ |- _ => apply H; reflexivity end.

(** C8, corrected. Every 200 or 201 response carries [BookResponse]
    objects with exactly the keys [title], [author], [id], [created_on]
    (the stored timestamp as an ISO-8601 string) and [created_by]: one
    object for a single record, an array of them for the listing. A
    delete never answers 200 or 201. *)
Theorem response_body_fields : forall env st now r,
  (status (handle env st now r) = 200%Z \/ status (handle env st now r) = 201%Z) ->
  match r with
  | GetBooks _ _ _ _ _ =>
      exists js, body (handle env st now r) = Some (JArr js) /\ Forall record_json_shape js
  | DeleteBook _ => False
  | _ => exists j, body (handle env st now r) = Some j /\ record_json_shape j
  end.
Proof.
  intros env st now r Hs.
  assert (Hn5 : status (handle env st now r) <> 500%Z) by (destruct Hs as [E|E]; rewrite E; discriminate).
  assert (Hn4 : status (handle env st now r) <> 404%Z) by (destruct Hs as [E|E]; rewrite E; discriminate).
  assert (Hn2 : status (handle env st now r) <> 422%Z) by (destruct Hs as [E|E]; rewrite E; discriminate).
  assert (Hn0 : status (handle env st now r) <> 204%Z) by (destruct Hs as [E|E]; rewrite E; discriminate).
  unfold handle in *.
  destruct r as [skip_q limit_q t a c|i|body0|i body0|i]; simpl validate in *.
  - destruct (_ && _ && _); [|absurd_status].
    cbv beta iota in *; unfold run_service in *; cbv beta iota in *.
    destruct (ok_or_500_success _ _ _ _ Hn5) as (j & Ej & ->).
    destruct (respond_list_shape _ _ Ej) as (js & -> & Hall).
    exists js. split; [reflexivity|exact Hall].
  - cbv beta iota in *; unfold run_service in *; cbv beta iota in *.
    destruct (get_by_id st i) as [b|]; [|absurd_status].
    destruct (ok_or_500_success _ _ _ _ Hn5) as (j & Ej & ->).
    exists j. split; [reflexivity|]. exact (book_response_shape _ _ Ej).
  - destruct (required_str body0 "title" 200%nat), (required_str body0 "author" 100%nat),
      (required_str body0 "created_by" 50%nat); try absurd_status.
    cbv beta iota in *; unfold run_service, create in *; cbv beta iota zeta in *.
    destruct (ok_or_500_success _ _ _ _ Hn5) as (j & Ej & ->).
    exists j. split; [reflexivity|]. exact (book_response_shape _ _ Ej).
  - destruct (optional_str body0 "title" 200%nat), (optional_str body0 "author" 100%nat);
      try absurd_status.
    cbv beta iota in *; unfold run_service in *; cbv beta iota in *.
    destruct (update env st i (l ++ l0)) as [|[[b|] st']]; try absurd_status.
    destruct (ok_or_500_success _ _ _ _ Hn5) as (j & Ej & ->).
    exists j. split; [reflexivity|]. exact (book_response_shape _ _ Ej).
  - cbv beta iota in *; unfold run_service in *; cbv beta iota in *.
    destruct (delete st i) as [[|] st']; absurd_status.
Qed.

Lemma response_body_fields_witness :
  status (handle example_env sample_store "2024-01-02 00:00:00" (GetBook 1)) = 200%Z
  /\ exists j, body (handle example_env sample_store "2024-01-02 00:00:00" (GetBook 1)) = Some j
               /\ record_json_shape j.
Proof.
  assert (Hs : status (handle example_env sample_store "2024-01-02 00:00:00" (GetBook 1)) = 200%Z)
    by reflexivity.
  split; [exact Hs|].
  exact (response_body_fields example_env sample_store "2024-01-02 00:00:00" (GetBook 1) (or_introl Hs)).
Defined.

(** ** Creating rows *)

Lemma max_rowid_fold : forall st m,
  (forall x, m = Some x ->
   exists y, fold_left max_rowid_step st m = Some y /\ (x <= y)%Z)
  /\ (forall b i, In b st -> id b = PyInt i ->
      exists y, fold_left max_rowid_step st m = Some y /\ (i <= y)%Z)
  /\ (forall y, fold_left max_rowid_step st m = Some y ->
      m = Some y \/ exists b, In b st /\ id b = PyInt y).
Proof.
  induction st as [|b st IH]; intros m; simpl.
  - split; [intros x ->; exists x; split; [reflexivity|lia]|].
    split; [intros b i []|]. intros y H. left. exact H.
  - destruct (IH (max_rowid_step m b)) as (H1 & H2 & H3).
    unfold max_rowid_step in *. destruct (id b) as [|z|s0] eqn:E.
    + split; [exact H1|]. split.
      * intros b0 i [<-|Hin] Hid; [congruence|]. exact (H2 b0 i Hin Hid).
      * intros y Hy. destruct (H3 y Hy) as [Hm|(b0 & Hin & Hid)]; [left; exact Hm|].
        right. exists b0. auto.
    + split; [|split].
      * intros x ->. destruct (H1 (Z.max x z) eq_refl) as (y & Hy & Hle).
        exists y. split; [exact Hy|lia].
      * intros b0 i [<-|Hin] Hid; [|exact (H2 b0 i Hin Hid)].
        rewrite E in Hid. injection Hid as <-.
        destruct (H1 _ eq_refl) as (y & Hy & Hle). exists y. split; [exact Hy|].
        destruct m; lia.
      * intros y Hy. destruct (H3 y Hy) as [Hm|(b0 & Hin & Hid)];
          [|right; exists b0; auto].
        injection Hm as Hm. destruct m as [x|].
        -- destruct (Z.max_spec x z) as [[_ Hx]|[_ Hx]]; rewrite Hx in Hm; subst.
           ++ right. exists b. auto.
           ++ left. reflexivity.
        -- subst. right. exists b. auto.
    + split; [exact H1|]. split.
      * intros b0 i [<-|Hin] Hid; [congruence|]. exact (H2 b0 i Hin Hid).
      * intros y Hy. destruct (H3 y Hy) as [Hm|(b0 & Hin & Hid)]; [left; exact Hm|].
        right. exists b0. auto.
Qed.

Lemma next_rowid_gt : forall st b i, In b st -> id b = PyInt i -> (i < next_rowid st)%Z.
Proof.
  intros st b i Hin Hid. unfold next_rowid, max_rowid.
  destruct (proj1 (proj2 (max_rowid_fold st None)) b i Hin Hid) as (y & -> & Hle). lia.
Qed.


Lemma create_id_fresh : forall st now t a c b0,
  In b0 st -> id b0 <> id (fst (create st now t a c)).
Proof.
  intros st now t a c b0 Hin Hid. simpl in Hid.
  pose proof (next_rowid_gt st b0 _ Hin Hid). lia.
Qed.

(** Looking an id up after a row with a new id is appended. *)
Lemma get_by_id_app_fresh : forall st b j,
  (forall b0, In b0 st -> id b0 <> id b) ->
  get_by_id (st ++ [b]) j
  = if pyval_eqb (id b) (PyInt j) then Some b else get_by_id st j.
Proof.
  unfold get_by_id. induction st as [|b0 st IH]; intros b j Hfresh; simpl.
  - destruct (pyval_eqb (id b) (PyInt j)); reflexivity.
  - destruct (pyval_eqb (id b0) (PyInt j)) eqn:E0.
    + destruct (pyval_eqb (id b) (PyInt j)) eqn:E; [|reflexivity].
      apply pyval_eqb_spec in E0, E. exfalso.
      apply (Hfresh b0 (or_introl eq_refl)). congruence.
    + apply IH. intros b1 Hb1. apply Hfresh. right. exact Hb1.
Qed.

Lemma NoDup_snoc : forall {A} (l : list A) x, NoDup l -> ~ In x l -> NoDup (l ++ [x]).
Proof.
  intros A l x. induction l as [|y l IH]; intros Hnd Hx; simpl.
  - constructor; [intros []|constructor].
  - inversion Hnd as [|? ? Hy Hnd']; subst. constructor.
    + intros Hin. apply in_app_or in Hin as [Hin|[E|[]]]; [contradiction|].
      subst. apply Hx. left. reflexivity.
    + apply IH; [exact Hnd'|]. intros Hin. apply Hx. right. exact Hin.
Qed.




(** X2. After [create], [get_by_id] of the id the new row holds returns
    it, and every other id is looked up as before. *)
Theorem create_then_get_by_id : forall st now t a c j,
  let '(b, st') := create st now t a c in
  exists k, id b = PyInt k
            /\ get_by_id st' j = if (k =? j)%Z then Some b else get_by_id st j.
Proof.
  intros st now t a c j. unfold create. cbv beta iota zeta.
  exists (next_rowid st). split; [reflexivity|].
  rewrite get_by_id_app_fresh.
  - reflexivity.
  - intros b0 Hin Hid. simpl in Hid. pose proof (next_rowid_gt st b0 _ Hin Hid). lia.
Qed.

(** X3. [create] keeps the table's invariant: every column set, and an
    integer id that no other row holds. *)
Theorem create_preserves_store_ok : forall st now t a c,
  store_ok st -> store_ok (snd (create st now t a c)).
Proof.
  intros st now t a c [Hwf Hnd].
  change (snd (create st now t a c)) with (st ++ [fst (create st now t a c)]).
  split.
  - intros b Hin. apply in_app_or in Hin as [Hin|[<-|[]]]; [apply Hwf; exact Hin|].
    split; [unfold row_not_null; simpl; repeat split; discriminate|].
    eexists. reflexivity.
  - rewrite map_app. apply NoDup_snoc; [exact Hnd|].
    intros Hin. apply in_map_iff in Hin as (b0 & Hid & Hin).
    exact (create_id_fresh st now t a c b0 Hin Hid).
Qed.

Lemma create_preserves_store_ok_witness :
  store_ok (snd (create sample_store "2024-01-02 00:00:00" "Dune" "Frank Herbert" "admin")).
Proof. apply create_preserves_store_ok. exact sample_store_ok. Defined.

(** ** Deleting and updating under the primary key *)

Lemma filter_all_true : forall {A} (f : A -> bool) l,
  (forall x, In x l -> f x = true) -> filter f l = l.
Proof.
  intros A f l. induction l as [|x l IH]; intros H; simpl; [reflexivity|].
  rewrite (H x (or_introl eq_refl)). rewrite IH; [reflexivity|].
  intros y Hy. apply H. right. exact Hy.
Qed.

(** Under the primary key, [remove_first] drops every row with the id. *)
Lemma remove_first_filter : forall st i,
  NoDup (map id st) ->
  remove_first st i = filter (fun b => negb (pyval_eqb (id b) (PyInt i))) st.
Proof.
  induction st as [|b st IH]; intros i Hnd; simpl; [reflexivity|].
  inversion Hnd as [|? ? Hb Hnd']; subst.
  destruct (pyval_eqb (id b) (PyInt i)) eqn:E; simpl.
  - symmetry. apply filter_all_true. intros x Hx.
    destruct (pyval_eqb (id x) (PyInt i)) eqn:Ex; [|reflexivity].
    exfalso. apply Hb. apply pyval_eqb_spec in E, Ex.
    rewrite E, <- Ex. apply in_map. exact Hx.
  - rewrite IH by exact Hnd'. reflexivity.
Qed.

Lemma NoDup_map_filter : forall {A B} (g : A -> B) f l,
  NoDup (map g l) -> NoDup (map g (filter f l)).
Proof.
  intros A B g f l. induction l as [|x l IH]; intros Hnd; simpl; [constructor|].
  inversion Hnd as [|? ? Hx Hnd']; subst.
  destruct (f x); simpl; [|apply IH; exact Hnd'].
  constructor; [|apply IH; exact Hnd'].
  intros Hin. apply Hx. apply in_map_iff in Hin as (y & Hy & Hin).
  apply filter_In in Hin as [Hin _]. rewrite <- Hy. apply in_map. exact Hin.
Qed.

Lemma find_filter_compat : forall {A} (f p : A -> bool) l,
  (forall x, f x = true -> p x = true) -> find f (filter p l) = find f l.
Proof.
  intros A f p l H. induction l as [|x l IH]; simpl; [reflexivity|].
  destruct (p x) eqn:Ep; simpl.
  - destruct (f x); [reflexivity|exact IH].
  - destruct (f x) eqn:Ef; [rewrite (H x Ef) in Ep; discriminate Ep|exact IH].
Qed.

Lemma delete_filter : forall st i,
  NoDup (map id st) ->
  snd (delete st i) = filter (fun b => negb (pyval_eqb (id b) (PyInt i))) st.
Proof.
  intros st i Hnd. unfold delete. destruct (get_by_id st i) eqn:Hb; simpl.
  - apply remove_first_filter. exact Hnd.
  - symmetry. apply filter_all_true. intros x Hx. unfold get_by_id in Hb.
    rewrite (find_none _ _ Hb x Hx). reflexivity.
Qed.

(** X4. Under the primary key, [delete] removes exactly the rows holding
    the id and keeps every other row, in order; the table keeps its
    invariant, and every other id is looked up as before. *)
Theorem delete_keeps_others : forall st i,
  store_ok st ->
  snd (delete st i) = filter (fun b => negb (pyval_eqb (id b) (PyInt i))) st
  /\ store_ok (snd (delete st i))
  /\ (forall j, j <> i -> get_by_id (snd (delete st i)) j = get_by_id st j).
Proof.
  intros st i [Hwf Hnd].
  rewrite (delete_filter st i Hnd). split; [reflexivity|]. split; [split|].
  - intros b Hin. apply filter_In in Hin as [Hin _]. apply Hwf. exact Hin.
  - apply NoDup_map_filter. exact Hnd.
  - intros j Hj. unfold get_by_id. apply find_filter_compat.
    intros x Hx. apply pyval_eqb_spec in Hx. rewrite Hx. simpl.
    destruct (Z.eqb_spec j i); [contradiction|reflexivity].
Qed.

Lemma delete_keeps_others_witness :
  get_by_id (snd (delete sample_store 2)) 3 = get_by_id sample_store 3.
Proof.
  apply (proj2 (proj2 (delete_keeps_others sample_store 2 sample_store_ok))). lia.
Defined.

Lemma length_replace_first : forall st i b',
  List.length (replace_first st i b') = List.length st.
Proof.
  induction st as [|b st IH]; intros i b'; simpl; [reflexivity|].
  destruct (pyval_eqb (id b) (PyInt i)); simpl; [reflexivity|]. rewrite IH. reflexivity.
Qed.

Lemma in_remove_first : forall st i x, In x (remove_first st i) -> In x st.
Proof.
  induction st as [|b st IH]; intros i x Hin; simpl in *; [exact Hin|].
  destruct (pyval_eqb (id b) (PyInt i)); [right; exact Hin|].
  destruct Hin as [<-|Hin]; [left; reflexivity|right; apply (IH i x Hin)].
Qed.

Lemma not_none_of_is_none : forall v, negb (is_none v) = true -> v <> PyNone.
Proof. intros [] H; simpl in H; discriminate. Qed.

(** X5. An update that commits keeps the table's invariant (every column
    set, an integer id held by one row only) and the number of rows. *)
Theorem update_preserves_store_ok : forall env st i d r st',
  store_ok st -> update env st i d = Ret (r, st') ->
  store_ok st' /\ List.length st' = List.length st.
Proof.
  intros env st i d r st' Hok Hu. unfold update in Hu.
  destruct (get_by_id st i) as [b|] eqn:Hb;
    [|injection Hu as _ <-; split; [exact Hok|reflexivity]].
  destruct (apply_update env b d) as [|[b1 a1]]; [discriminate Hu|].
  destruct (flush_row env b1 a1) as [|b']; [discriminate Hu|].
  destruct (row_ok (remove_first st i) b') eqn:Hrow; [|discriminate Hu].
  injection Hu as _ <-.
  destruct (row_ok_spec _ _ Hrow) as (Hnn & Hid & Hex).
  destruct Hok as [Hwf Hnd].
  assert (Hp : Permutation (place_row st i b') (b' :: remove_first st i))
    by (apply place_row_perm; congruence).
  split; [split|].
  - intros x Hx. apply (Permutation_in _ Hp) in Hx. destruct Hx as [<-|Hx].
    + split; [exact Hnn|exact Hid].
    + apply Hwf. exact (in_remove_first st i x Hx).
  - apply (Permutation_NoDup (Permutation_map id (Permutation_sym Hp))). simpl.
    constructor.
    + intros Hin. apply in_map_iff in Hin as (o & Ho & Hin).
      assert (E : existsb (fun o => pyval_eqb (id o) (id b')) (remove_first st i) = true).
      { apply existsb_exists. exists o. split; [exact Hin|].
        apply pyval_eqb_spec. exact Ho. }
      rewrite E in Hex. discriminate Hex.
    + rewrite remove_first_filter by exact Hnd. apply NoDup_map_filter. exact Hnd.
  - pose proof (replace_first_perm st i b ltac:(congruence)) as Hst.
    rewrite (replace_first_same st i b Hb) in Hst.
    rewrite (Permutation_length Hp), (Permutation_length Hst). reflexivity.
Qed.

Lemma update_preserves_store_ok_witness :
  store_ok [mk_row 2 "The Pragmatic Programmer" "David Thomas" "admin";
            mk_row 3 "Design Patterns" "Gang of Four" "user1";
            mk_row 4 "Refactoring" "Martin Fowler" "user2";
            mk_row 7 "Clean Code" "Robert Martin" "admin"].
Proof.
  assert (Hu : update example_env sample_store 1 [("id", PyInt 7)]
               = Ret (Some (mk_row 7 "Clean Code" "Robert Martin" "admin"),
                      [mk_row 2 "The Pragmatic Programmer" "David Thomas" "admin";
                       mk_row 3 "Design Patterns" "Gang of Four" "user1";
                       mk_row 4 "Refactoring" "Martin Fowler" "user2";
                       mk_row 7 "Clean Code" "Robert Martin" "admin"]))
    by (vm_compute; reflexivity).
  exact (proj1 (update_preserves_store_ok example_env sample_store 1 [("id", PyInt 7)] _ _
                  sample_store_ok Hu)).
Defined.

(** ** Field queries and the wildcard-free case *)

Lemma contains_empty : forall v, contains v "" = negb (is_none v).
Proof.
  intros [|z|s]; unfold contains; simpl sql_text; cbv iota; try reflexivity;
    exact (like_percent_skip "%" "" _ (like_empty_pattern_percent _)).
Qed.

Lemma ci_eq_str_refl : forall x, ci_eq_str x x = true.
Proof.
  induction x as [|c x IH]; simpl; [reflexivity|].
  rewrite IH. unfold eq_ci. rewrite Ascii.eqb_refl. reflexivity.
Qed.

Lemma string_app_nil_r : forall s, (s ++ "")%string = s.
Proof. induction s as [|c s IH]; simpl; [reflexivity|]. rewrite IH. reflexivity. Qed.

Lemma contains_self : forall c, contains (PyStr c) c = true.
Proof.
  intros c. apply contains_of_ci_substring.
  exists ""%string, c, ""%string. split; [|apply ci_eq_str_refl].
  simpl. rewrite string_app_nil_r. reflexivity.
Qed.

(** X6. [search_by_title] and [search_by_author] return what [search]
    returns for that one field whenever the criterion is non-empty. An
    empty criterion is not skipped as in [search]: it makes the pattern
    [%%], which keeps exactly the rows whose column is not NULL, so on a
    valid table every row. *)
Theorem search_by_field_vs_search : forall st x,
  (x <> ""%string ->
   search_by_title st x = search st (Some x) None None
   /\ search_by_author st x = search st None (Some x) None)
  /\ search_by_title st "" = filter (fun b => negb (is_none (title b))) st
  /\ search_by_author st "" = filter (fun b => negb (is_none (author b))) st
  /\ (store_ok st -> search_by_title st "" = st /\ search_by_author st "" = st).
Proof.
  intros st x.
  assert (Ht : search_by_title st "" = filter (fun b => negb (is_none (title b))) st)
    by (apply filter_ext; intros b; apply contains_empty).
  assert (Ha : search_by_author st "" = filter (fun b => negb (is_none (author b))) st)
    by (apply filter_ext; intros b; apply contains_empty).
  split; [|split; [exact Ht|split; [exact Ha|]]].
  - intros Hx. split.
    + rewrite search_filter by (rewrite truthy_some by exact Hx; reflexivity).
      apply filter_ext. intros b. unfold criterion_holds. cbv beta iota.
      rewrite truthy_some by exact Hx. rewrite !orb_false_r. reflexivity.
    + rewrite search_filter by (rewrite truthy_some by exact Hx; reflexivity).
      apply filter_ext. intros b. unfold criterion_holds. cbv beta iota.
      rewrite truthy_some by exact Hx. rewrite orb_false_r. reflexivity.
  - intros [Hwf _]. rewrite Ht, Ha.
    split; apply filter_all_true; intros b Hin;
      destruct (Hwf b Hin) as [(_ & H2 & H3 & _) _]; rewrite is_none_false; auto.
Qed.

Lemma search_by_field_vs_search_witness :
  search_by_title sample_store "Code" = search sample_store (Some "Code") None None
  /\ search_by_title sample_store "" = sample_store.
Proof.
  split.
  - apply (proj1 (proj1 (search_by_field_vs_search sample_store "Code") ltac:(discriminate))).
  - apply (proj1 (proj2 (proj2 (proj2 (search_by_field_vs_search sample_store "")))
                   sample_store_ok)).
Defined.

Lemma filter_filter_sub : forall {A} (p q : A -> bool) l,
  (forall x, q x = true -> p x = true) -> filter q (filter p l) = filter q l.
Proof.
  intros A p q l H. induction l as [|x l IH]; simpl; [reflexivity|].
  destruct (p x) eqn:Ep; simpl.
  - destruct (q x); rewrite IH; reflexivity.
  - destruct (q x) eqn:Eq; [rewrite (H x Eq) in Ep; discriminate Ep|exact IH].
Qed.

(** X7. The exact-match query [get_by_created_by] returns, in store order,
    those rows of [search] on the same creator whose creator equals the
    string exactly: every exact match is also a [search] result. *)
Theorem get_by_created_by_within_search : forall st c,
  get_by_created_by st c
  = filter (fun b => pyval_eqb (created_by b) (PyStr c)) (search st None None (Some c)).
Proof.
  intros st c. unfold get_by_created_by.
  destruct (String.eqb_spec c "") as [->|Hc]; [reflexivity|].
  rewrite search_filter by (rewrite truthy_some by exact Hc; reflexivity).
  symmetry. apply filter_filter_sub. intros b Hb. apply pyval_eqb_spec in Hb.
  unfold criterion_holds. cbv beta iota.
  rewrite Hb, (truthy_some c Hc), contains_self. reflexivity.
Qed.

Lemma in_suffixes_split : forall s t, In t (suffixes s) -> exists pre, s = (pre ++ t)%string.
Proof.
  induction s as [|c s IH]; intros t Hin; simpl in Hin.
  - destruct Hin as [<-|[]]. exists ""%string. reflexivity.
  - destruct Hin as [<-|Hin].
    + exists ""%string. reflexivity.
    + destruct (IH t Hin) as [pre ->]. exists (String c pre). reflexivity.
Qed.

Lemma like_nowild_then_percent : forall x t,
  no_like_wildcards x = true -> like (x ++ "%")%string t = true ->
  exists y suf, t = (y ++ suf)%string /\ ci_eq_str x y = true.
Proof.
  induction x as [|c x IH]; intros t Hw H.
  - exists ""%string, t. split; reflexivity.
  - simpl in Hw. apply andb_prop in Hw as [Hc Hw]. apply andb_prop in Hc as [Hp Hu].
    apply negb_true_iff in Hp, Hu.
    simpl in H. rewrite Hp in H.
    destruct t as [|d t]; [discriminate H|].
    rewrite Hu in H. simpl in H. apply andb_prop in H as [Hcd H].
    destruct (IH t Hw H) as (y & suf & -> & Hxy).
    exists (String d y), suf. split; [reflexivity|]. simpl. rewrite Hcd, Hxy. reflexivity.
Qed.

Lemma like_percent_cons : forall q s,
  like (String "%" q) s = existsb (like q) (suffixes s).
Proof. reflexivity. Qed.

(** X8. For a criterion with neither [%] nor [_], [search_by_title] is a
    case-insensitive substring search: it returns exactly the rows whose
    title, as SQLite text, contains the criterion up to ASCII letter
    case. *)
Theorem search_by_title_no_wildcards : forall st x b,
  no_like_wildcards x = true ->
  (In b (search_by_title st x)
   <-> In b st /\ exists s, sql_text (title b) = Some s /\ ci_substring x s).
Proof.
  intros st x b Hw. unfold search_by_title. rewrite filter_In.
  split; intros [Hin H]; (split; [exact Hin|]).
  - unfold contains in H. destruct (sql_text (title b)) as [s|]; [|discriminate H].
    exists s. split; [reflexivity|].
    change (like (String "%" (x ++ "%")) s = true) in H.
    rewrite like_percent_cons in H.
    apply existsb_exists in H as (t & Ht & Hl).
    destruct (in_suffixes_split s t Ht) as [pre ->].
    destruct (like_nowild_then_percent x t Hw Hl) as (y & suf & -> & Hxy).
    exists pre, y, suf. split; [reflexivity|exact Hxy].
  - destruct H as (s & Hs & Hsub). unfold contains. rewrite Hs.
    exact (contains_of_ci_substring x s Hsub).
Qed.

Lemma search_by_title_no_wildcards_witness :
  In (mk_row 1 "Clean Code" "Robert Martin" "admin") (search_by_title sample_store "code").
Proof.
  apply (proj2 (search_by_title_no_wildcards sample_store "code"
                  (mk_row 1 "Clean Code" "Robert Martin" "admin") eq_refl)).
  split; [left; reflexivity|].
  exists "Clean Code"%string. split; [reflexivity|].
  exists "Clean "%string, "Code"%string, ""%string. split; reflexivity.
Defined.

(** ** Listing pages *)









(** ** The two applications *)

(** X11. The endpoints of [main.py], written against the repository, give
    the same status and body, and leave the same table, as the router of
    [api/books.py] going through [BookService]; they make no service
    call. *)
Theorem main_app_matches_router : forall env st now r,
  status (main_handle env st now r) = status (handle env st now r)
  /\ body (main_handle env st now r) = body (handle env st now r)
  /\ final_store (main_handle env st now r) = final_store (handle env st now r)
  /\ service_calls (main_handle env st now r) = [].
Proof.
  intros env st now r. unfold main_handle, handle.
  destruct (validate r) as [c|]; [|repeat split].
  assert (Hrows : forall t a cb skip limit,
            main_get_books st t a cb skip limit = snd (search_books st t a cb skip limit)).
  { intros t a cb skip limit. unfold main_get_books, search_books, list_books.
    destruct (truthy t || truthy a || truthy cb); reflexivity. }
  destruct c as [t a cb skip limit|i|t a cb|i d|i]; unfold main_run, run_service.
  - rewrite Hrows. destruct (respond_list _); repeat split.
  - destruct (get_by_id st i); [destruct (book_response _)|]; repeat split.
  - destruct (create st now t a cb) as [b st']. destruct (book_response b); repeat split.
  - destruct (update env st i d) as [|[[b|] st']]; [|destruct (book_response b)|];
      repeat split.
  - destruct (delete st i) as [[|] st']; repeat split.
Qed.

(** ** HTTP behaviour *)






Lemma optional_str_keys : forall req k n l,
  optional_str req k n = Some l -> forall x, In x (map fst l) -> x = k.
Proof.
  intros req k n l H x Hx. unfold optional_str in H.
  destruct (body_lookup req k) as [[| | |s| |]|]; try discriminate H.
  - injection H as <-. destruct Hx as [<-|[]]. reflexivity.
  - destruct (str_in_bounds s n); [|discriminate H].
    injection H as <-. destruct Hx as [<-|[]]. reflexivity.
  - injection H as <-. destruct Hx.
Qed.

Lemma map_replace_first_same : forall {B} (f : Book -> B) st i b b',
  get_by_id st i = Some b -> f b' = f b -> map f (replace_first st i b') = map f st.
Proof.
  unfold get_by_id. intros B f st.
  induction st as [|b0 st IH]; intros i b b' Hb Hf; simpl in *; [discriminate Hb|].
  destruct (pyval_eqb (id b0) (PyInt i)); simpl.
  - injection Hb as <-. rewrite Hf. reflexivity.
  - rewrite (IH i b b' Hb Hf). reflexivity.
Qed.

(** X14. A PUT never changes any row's id, creation time or creator and
    never adds or removes a row: its validated body carries only [title]
    and [author]. *)
Theorem put_keeps_id_and_provenance : forall env st now i req,
  map id (final_store (handle env st now (PutBook i req))) = map id st
  /\ map created_on (final_store (handle env st now (PutBook i req))) = map created_on st
  /\ map created_by (final_store (handle env st now (PutBook i req))) = map created_by st.
Proof.
  intros env st now i req. unfold handle, validate.
  destruct (optional_str req "title" 200) as [dt|] eqn:Et; [|repeat split].
  destruct (optional_str req "author" 100) as [da|] eqn:Ea; [|repeat split].
  assert (Hk : forall k, k <> "title"%string -> k <> "author"%string ->
                         ~ In k (map fst (dt ++ da))).
  { intros k H1 H2 Hin. rewrite map_app in Hin. apply in_app_or in Hin as [Hin|Hin].
    - apply H1. exact (optional_str_keys _ _ _ _ Et k Hin).
    - apply H2. exact (optional_str_keys _ _ _ _ Ea k Hin). }
  unfold run_service, update.
  destruct (get_by_id st i) as [b|] eqn:Hb; [|repeat split].
  destruct (apply_update env b (dt ++ da)) as [|[b1 a1]] eqn:Eu; [repeat split|].
  destruct (flush_row env b1 a1) as [|b'] eqn:Ef; [repeat split|].
  destruct (row_ok (remove_first st i) b'); [|repeat split].
  assert (Hf : forall k, k <> "title"%string -> k <> "author"%string ->
                         get_column b' k = get_column b k).
  { intros k H1 H2. apply (update_row_frame env b (dt ++ da) b1 a1 b' k Eu Ef).
    intros v Hin. exfalso. apply (Hk k H1 H2). apply in_map_iff. exists (k, v). auto. }
  pose proof (Hf "id"%string ltac:(discriminate) ltac:(discriminate)) as Hid.
  pose proof (Hf "created_on"%string ltac:(discriminate) ltac:(discriminate)) as Hon.
  pose proof (Hf "created_by"%string ltac:(discriminate) ltac:(discriminate)) as Hby.
  simpl in Hid, Hon, Hby. injection Hid as Hid. injection Hon as Hon. injection Hby as Hby.
  assert (Hp : place_row st i b' = replace_first st i b').
  { unfold place_row. rewrite Hid, (proj2 (get_by_id_some st i b Hb)).
    replace (pyval_eqb (PyInt i) (PyInt i)) with true
      by (symmetry; apply pyval_eqb_spec; reflexivity).
    reflexivity. }
  rewrite Hp.
  destruct (book_response b'); simpl;
    (split; [|split]); apply (map_replace_first_same _ st i b); assumption.
Qed.

(** ** Seeding and read-only requests *)


(** ** Rowid order *)

Lemma StronglySorted_snoc : forall {A} (R : A -> A -> Prop) l y,
  StronglySorted R l -> (forall x, In x l -> R x y) -> StronglySorted R (l ++ [y]).
Proof.
  intros A R l y. induction l as [|x l IH]; intros Hs Hy; simpl.
  - constructor; [constructor|constructor].
  - apply StronglySorted_inv in Hs as [Hs Hx]. constructor.
    + apply IH; [exact Hs|]. intros z Hz. apply Hy. right. exact Hz.
    + apply Forall_app. split; [exact Hx|].
      constructor; [apply Hy; left; reflexivity|constructor].
Qed.

Lemma Forall_sublist_map : forall {A B} (P : B -> Prop) (f : A -> B) l l',
  (forall x, In x l' -> In x l) -> Forall P (map f l) -> Forall P (map f l').
Proof.
  intros A B P f l l' Hsub H. rewrite Forall_forall in *. intros y Hy.
  apply in_map_iff in Hy as (x & <- & Hx). apply H. apply in_map. apply Hsub. exact Hx.
Qed.

Lemma remove_first_sorted : forall st i,
  rowid_sorted st -> rowid_sorted (remove_first st i).
Proof.
  unfold rowid_sorted.
  induction st as [|b st IH]; intros i Hs; simpl; [exact Hs|].
  simpl in Hs. apply StronglySorted_inv in Hs as [Hs Hb].
  destruct (pyval_eqb (id b) (PyInt i)); [exact Hs|].
  simpl. constructor; [apply IH; exact Hs|].
  apply (Forall_sublist_map _ id st); [apply in_remove_first|exact Hb].
Qed.

Lemma id_lt_trans : forall x y z, id_lt x y -> id_lt y z -> id_lt x z.
Proof.
  intros x y z (m & n & -> & -> & H1) (n' & p & E & -> & H2).
  injection E as <-. exists m, p. repeat split; lia.
Qed.

Lemma sorted_skipn : forall n st, rowid_sorted st -> rowid_sorted (skipn n st).
Proof.
  unfold rowid_sorted.
  induction n as [|n IH]; intros [|b st] Hs; simpl; try exact Hs.
  apply IH. simpl in Hs. apply StronglySorted_inv in Hs as [Hs _]. exact Hs.
Qed.

Lemma sorted_firstn : forall n st, rowid_sorted st -> rowid_sorted (firstn n st).
Proof.
  unfold rowid_sorted.
  induction n as [|n IH]; intros [|b st] Hs; simpl; try constructor.
  - apply IH. simpl in Hs. apply StronglySorted_inv in Hs as [Hs _]. exact Hs.
  - simpl in Hs. apply StronglySorted_inv in Hs as [_ Hb].
    apply (Forall_sublist_map _ id st); [|exact Hb].
    intros x Hx. rewrite <- (firstn_skipn n st). apply in_or_app. left. exact Hx.
Qed.

(** A row whose integer id no row holds goes to its place in id order. *)
Lemma insert_by_rowid_sorted : forall rest b j,
  rowid_sorted rest -> (forall x, In x rest -> exists y, id x = PyInt y) ->
  id b = PyInt j -> (forall x, In x rest -> id x <> PyInt j) ->
  rowid_sorted (insert_by_rowid b rest).
Proof.
  unfold rowid_sorted.
  induction rest as [|b0 rest IH]; intros b j Hs Hint Hj Hne; simpl.
  - constructor; constructor.
  - simpl in Hs. apply StronglySorted_inv in Hs as [Hs Hb0].
    destruct (Hint b0 (or_introl eq_refl)) as [y0 Hy0].
    unfold rowid_lt. rewrite Hj, Hy0.
    destruct (Z.ltb_spec j y0) as [Hlt|Hge]; simpl.
    + constructor; [simpl; constructor; [exact Hs|exact Hb0]|].
      assert (H0 : id_lt (id b) (id b0)) by (rewrite Hj, Hy0; exists j, y0; auto).
      constructor; [exact H0|].
      rewrite Forall_forall in *. intros z Hz. apply (id_lt_trans _ (id b0)); [exact H0|].
      apply Hb0. exact Hz.
    + assert (Hlt : (y0 < j)%Z).
      { destruct (Z.eq_dec y0 j) as [->|]; [|lia].
        exfalso. exact (Hne b0 (or_introl eq_refl) Hy0). }
      constructor.
      * apply (IH b j Hs); [intros x Hx; apply Hint; right; exact Hx|exact Hj|].
        intros x Hx. apply Hne. right. exact Hx.
      * rewrite Forall_forall in *. intros z Hz.
        apply in_map_iff in Hz as (x & <- & Hx).
        apply (Permutation_in _ (insert_by_rowid_perm b rest)) in Hx.
        destruct Hx as [<-|Hx].
        -- rewrite Hj, Hy0. exists y0, j. auto.
        -- apply Hb0. apply in_map. exact Hx.
Qed.

(** X16. Rows stay in increasing id order, the order SQLite lists a
    rowid table in: [create], [delete] and a committed [update] keep a
    valid table sorted by id, and a page of [get_all] lists rows in
    increasing id order. *)
Theorem operations_keep_rowid_order : forall env st now t a c i d r st' skip limit,
  store_ok st -> rowid_sorted st ->
  rowid_sorted (snd (create st now t a c))
  /\ rowid_sorted (snd (delete st i))
  /\ (update env st i d = Ret (r, st') -> rowid_sorted st')
  /\ rowid_sorted (get_all st skip limit).
Proof.
  intros env st now t a c i d r st' skip limit [Hwf Hnd] Hs.
  split; [|split; [|split]].
  - unfold create, rowid_sorted. simpl. rewrite map_app. apply StronglySorted_snoc;
      [exact Hs|].
    intros x Hx. apply in_map_iff in Hx as (b & <- & Hb).
    destruct (Hwf b Hb) as [_ (k & Hk)]. rewrite Hk.
    exists k, (next_rowid st). repeat split. exact (next_rowid_gt st b k Hb Hk).
  - unfold delete. destruct (get_by_id st i); [apply remove_first_sorted|]; exact Hs.
  - intros Hu. unfold update in Hu.
    destruct (get_by_id st i) as [b|] eqn:Hb; [|injection Hu as _ <-; exact Hs].
    destruct (apply_update env b d) as [|[b1 a1]]; [discriminate Hu|].
    destruct (flush_row env b1 a1) as [|b']; [discriminate Hu|].
    destruct (row_ok (remove_first st i) b') eqn:Hrow; [|discriminate Hu].
    injection Hu as _ <-.
    destruct (row_ok_spec _ _ Hrow) as (_ & (j & Hj) & Hex).
    unfold place_row. destruct (pyval_eqb (id b') (PyInt i)) eqn:E.
    + unfold rowid_sorted. apply pyval_eqb_spec in E.
      rewrite (map_replace_first_same id st i b b' Hb); [exact Hs|].
      rewrite E. symmetry. exact (proj2 (get_by_id_some st i b Hb)).
    + apply (insert_by_rowid_sorted _ b' j); [apply remove_first_sorted; exact Hs| |exact Hj|].
      * intros x Hx. exact (proj2 (Hwf x (in_remove_first st i x Hx))).
      * intros x Hx Hxj. rewrite <- Hj in Hxj.
        assert (Ht : existsb (fun o => pyval_eqb (id o) (id b')) (remove_first st i) = true).
        { apply existsb_exists. exists x. split; [exact Hx|].
          apply pyval_eqb_spec. exact Hxj. }
        rewrite Ht in Hex. discriminate Hex.
  - unfold get_all. apply sorted_firstn, sorted_skipn. exact Hs.
Qed.

Lemma operations_keep_rowid_order_witness :
  rowid_sorted [mk_row 2 "The Pragmatic Programmer" "David Thomas" "admin";
                mk_row 3 "Design Patterns" "Gang of Four" "user1";
                mk_row 4 "Refactoring" "Martin Fowler" "user2";
                mk_row 7 "Clean Code" "Robert Martin" "admin"].
Proof.
  assert (Hs : rowid_sorted sample_store).
  { unfold rowid_sorted. simpl.
    repeat constructor; eexists _, _; repeat split; lia. }
  assert (Hu : update example_env sample_store 1 [("id", PyInt 7)]
               = Ret (Some (mk_row 7 "Clean Code" "Robert Martin" "admin"),
                      [mk_row 2 "The Pragmatic Programmer" "David Thomas" "admin";
                       mk_row 3 "Design Patterns" "Gang of Four" "user1";
                       mk_row 4 "Refactoring" "Martin Fowler" "user2";
                       mk_row 7 "Clean Code" "Robert Martin" "admin"]))
    by (vm_compute; reflexivity).
  exact (proj1 (proj2 (proj2
           (operations_keep_rowid_order example_env sample_store "2024-01-02 00:00:00"
              "Dune" "Frank Herbert" "admin" 1 [("id", PyInt 7)] _ _ 0 10
              sample_store_ok Hs))) Hu).
Defined.
